(** * Rumor classification workflow (cofacts/worker, src/index.ts)

    A shallow embedding of the [RumorClassificationWorkflow]: the dataset
    normalisation of step "load-langfuse-dataset", the polling step
    "poll-batch-completion" and the scoring step "evaluate-and-log-results",
    together with the part of [run] that chains the last two.

    JavaScript values are embedded as an inductive type, thrown exceptions as
    an explicit completion type, the Langfuse client as the sequence of calls
    made on it, and the OpenAI client as a record of answers. *)

From Stdlib Require Import String Ascii List Bool Arith ZArith Lia.
From Stdlib Require Import DecimalString Floats Uint63.
Import ListNotations.
Open Scope string_scope.
Open Scope list_scope.

(** ** JavaScript values *)

Module Js.

(** Values as [JSON.parse] and object literals produce them.  Strings are
    sequences of code units; the embedding covers code units 0..255.
    Numbers are IEEE 754 binary64, as in the language. *)
#[warnings="-register-all"]
Inductive Value : Type :=
| JUndefined
| JNull
| JBool (b : bool)
| JNumber (x : float)
| JString (s : string)
| JArray (items : list Value)
| JObject (props : list (string * Value)).

(** What a statement or an expression can throw. [Error] carries the
    message given to [new Error(...)]; the messages of the engine's own
    [TypeError] and [SyntaxError] are left out. *)
Inductive Exn : Type :=
| Error (message : string)
| TypeError
| SyntaxError.

Inductive Completion (A : Type) : Type :=
| Return (a : A)
| Throw (e : Exn).
Arguments Return {A} a.
Arguments Throw {A} e.

Definition bind {A B : Type} (c : Completion A) (k : A -> Completion B)
  : Completion B :=
  match c with
  | Return a => k a
  | Throw e => Throw e
  end.

(** ToBoolean. *)
Definition truthy (v : Value) : bool :=
  match v with
  | JUndefined | JNull => false
  | JBool b => b
  | JNumber x => negb (PrimFloat.eqb x 0 || PrimFloat.is_nan x)
  | JString s => negb (String.eqb s "")
  | JArray _ | JObject _ => true
  end.

(** [a || b]. *)
Definition or (a b : Value) : Value := if truthy a then a else b.

(** [a === b] for two values that were deserialised separately: primitives
    compare by value (numbers as IEEE 754 does), and two arrays or objects
    are never the same reference.  The two [===] of step 5 each compare a
    field of a dataset item with a field of a batch result. *)
Definition strict_eq (a b : Value) : bool :=
  match a, b with
  | JUndefined, JUndefined => true
  | JNull, JNull => true
  | JBool x, JBool y => Bool.eqb x y
  | JNumber x, JNumber y => PrimFloat.eqb x y
  | JString x, JString y => String.eqb x y
  | _, _ => false
  end.

Fixpoint lookup (key : string) (props : list (string * Value)) : Value :=
  match props with
  | [] => JUndefined
  | (k, v) :: rest => if String.eqb k key then v else lookup key rest
  end.

(** [v.key] for the property names the workflow reads ([id], [input],
    [text], [expectedOutput], [category], [metadata], [custom_id],
    [response], [body], [choices], [message], [content], [confidence],
    [reasoning]): none of them is inherited from a prototype, so only an
    object can answer with something else than [undefined], and reading
    from [undefined] or [null] throws. *)
Definition get (v : Value) (key : string) : Completion Value :=
  match v with
  | JUndefined | JNull => Throw TypeError
  | JObject props => Return (lookup key props)
  | JBool _ | JNumber _ | JString _ | JArray _ => Return JUndefined
  end.

(** [v?.key], same property names. *)
Definition opt_get (v : Value) (key : string) : Value :=
  match v with
  | JObject props => lookup key props
  | _ => JUndefined
  end.

(** The property name of an array index. *)
Definition index_key (n : nat) : string :=
  NilEmpty.string_of_uint (Nat.to_uint n).

(** [v[n]] for a literal index [n]. *)
Definition get_index (v : Value) (n : nat) : Completion Value :=
  match v with
  | JUndefined | JNull => Throw TypeError
  | JArray items => Return (nth n items JUndefined)
  | JString s =>
      Return (match String.get n s with
              | Some c => JString (String c EmptyString)
              | None => JUndefined
              end)
  | JObject props => Return (lookup (index_key n) props)
  | JBool _ | JNumber _ => Return JUndefined
  end.

(** A counter (an integral number below 2^53) as a number. *)
Definition number_of_nat (n : nat) : float :=
  PrimFloat.of_uint63 (Uint63.of_Z (Z.of_nat n)).

(** [Array.prototype.map] with a callback that may throw. *)
Fixpoint map_throwing {A B : Type} (f : A -> Completion B) (l : list A)
  : Completion (list B) :=
  match l with
  | [] => Return []
  | a :: rest =>
      bind (f a) (fun b =>
      bind (map_throwing f rest) (fun bs => Return (b :: bs)))
  end.

End Js.

Import Js.

Declare Scope js_scope.
Delimit Scope js_scope with js.
Notation "x <- c ;; k" := (Js.bind c (fun x => k))
  (at level 61, c at next level, right associativity) : js_scope.
Open Scope js_scope.

(** ** The records of the workflow *)

Module DatasetItem.
(** [type DatasetItem]; the fields hold whatever the loader put there. *)
Record t : Type := make {
  id : Value;
  text : Value;
  expectedCategory : Value;
  metadata : Value
}.
End DatasetItem.

Module CofactsCategory.
Record t : Type := make {
  id : Value;
  title : Value
}.
End CofactsCategory.

Module ClassificationResult.
Record t : Type := make {
  id : Value;
  category : Value;
  confidence : Value;
  reasoning : Value
}.
End ClassificationResult.

(** ** Step "load-langfuse-dataset": normalisation of the entries *)

(** The callback of [dataset.items.map], lines 67-72. *)
Definition normalize_item (item : Value) : Completion DatasetItem.t :=
  id <- get item "id" ;;
  input <- get item "input" ;;
  expectedOutput <- get item "expectedOutput" ;;
  metadata <- get item "metadata" ;;
  Return {| DatasetItem.id := id;
            DatasetItem.text := or (opt_get input "text") input;
            DatasetItem.expectedCategory :=
              or (opt_get expectedOutput "category") expectedOutput;
            DatasetItem.metadata := metadata |}.

Definition normalize_items (items : list Value)
  : Completion (list DatasetItem.t) :=
  map_throwing normalize_item items.

(** ** Strings: [trim] and [split('\n')] *)

(** White space and line terminators among the code units 0..255: TAB, LF,
    VT, FF, CR, SP and NBSP. *)
Definition is_white_space (c : ascii) : bool :=
  let n := nat_of_ascii c in
  ((9 <=? n)%nat && (n <=? 13)%nat) || (n =? 32)%nat || (n =? 160)%nat.

Fixpoint trim_start (s : string) : string :=
  match s with
  | EmptyString => EmptyString
  | String c rest => if is_white_space c then trim_start rest else s
  end.

Fixpoint trim_end (s : string) : string :=
  match s with
  | EmptyString => EmptyString
  | String c rest =>
      match trim_end rest with
      | EmptyString =>
          if is_white_space c then EmptyString else String c EmptyString
      | kept => String c kept
      end
  end.

Definition trim (s : string) : string := trim_end (trim_start s).

Definition LF : ascii := ascii_of_nat 10.

(** [s.split('\n')]: never empty, [""] for the empty string. *)
Fixpoint split_lines (s : string) : list string :=
  match s with
  | EmptyString => [EmptyString]
  | String c rest =>
      if Ascii.eqb c LF then EmptyString :: split_lines rest
      else match split_lines rest with
           | [] => [String c EmptyString]
           | line :: lines => String c line :: lines
           end
  end.

(** ** The OpenAI client, as the workflow sees it *)

(** What [openai.batches.retrieve] answers: [id], [status],
    [output_file_id] and [request_counts?.completed]. *)
Record Batch : Type := {
  batch_id : string;
  status : string;
  output_file_id : option string;
  request_counts_completed : option nat
}.

(** The two calls of step 4.  [batches_retrieve batchId k] is the answer to
    the [k]-th status query of the run (the first is query 0);
    [files_content] is given [batch.output_file_id]. *)
Record OpenAI : Type := {
  batches_retrieve : string -> nat -> Completion Batch;
  files_content : option string -> Completion string
}.

Record Usage : Type := {
  prompt_tokens : nat;
  completion_tokens : nat;
  total_tokens : nat
}.

Module BatchResult.
(** What the callback of step 4 returns. *)
Record t : Type := make {
  batchId : string;
  results : list ClassificationResult.t;
  usage : Usage
}.
End BatchResult.

(** ** The stage executor *)

(** The second argument of [step.do] at lines 151-158. *)
Record StepConfig : Type := {
  retries_limit : nat;
  retries_delay_minutes : nat;
  timeout_hours : nat
}.

(** One execution of a step: how it ended, and the exceptions of the
    attempts that were followed by a wait and another attempt. *)
Record StepRun (T : Type) : Type := {
  outcome : Completion T;
  retried : list Exn
}.
Arguments outcome {T} s.
Arguments retried {T} s.

(** The number of times the callback ran. *)
Definition attempts {T : Type} (r : StepRun T) : nat := S (length (retried r)).

(** Modelled from the spec: the Stage Executor, [step.do] of
    "cloudflare:workers", is not part of the sources.  Section 4.1: on
    failure the unit of work is invoked again according to the retry policy,
    and a stage that fails after exhausting its retries fails the pipeline.
    Every exception of the callback is such a failure: the workflow throws
    plain [Error]s and marks none of them as final.  The time that passes
    (delay, timeout) is not modelled.  [work k] is the callback on the
    [k]-th attempt, the first being attempt 0. *)
Fixpoint step_do_from {T : Type} (work : nat -> Completion T)
  (retries_left attempt : nat) : StepRun T :=
  match work attempt with
  | Return v => {| outcome := Return v; retried := [] |}
  | Throw e =>
      match retries_left with
      | O => {| outcome := Throw e; retried := [] |}
      | S n =>
          match step_do_from work n (S attempt) with
          | {| outcome := o; retried := es |} =>
              {| outcome := o; retried := e :: es |}
          end
      end
  end.

Definition step_do {T : Type} (config : StepConfig)
  (work : nat -> Completion T) : StepRun T :=
  step_do_from work (retries_limit config) 0.

(** ** Step "poll-batch-completion" *)

Section Poller.

(** [JSON.parse], a builtin: [None] when it throws its [SyntaxError]. *)
Variable JSON_parse : Value -> option Value.

Definition parse (v : Value) : Completion Value :=
  match JSON_parse v with
  | Some parsed => Return parsed
  | None => Throw SyntaxError
  end.

(** [response.response.body.choices[0].message.content], line 176. *)
Definition message_content (response : Value) : Completion Value :=
  inner <- get response "response" ;;
  body <- get inner "body" ;;
  choices <- get body "choices" ;;
  choice <- get_index choices 0 ;;
  message <- get choice "message" ;;
  get message "content".

(** The body of the loop over the lines, lines 175-184. *)
Definition decode_line (line : string)
  : Completion ClassificationResult.t :=
  response <- parse (JString line) ;;
  content <- message_content response ;;
  classification <- parse content ;;
  custom_id <- get response "custom_id" ;;
  category <- get classification "category" ;;
  confidence <- get classification "confidence" ;;
  reasoning <- get classification "reasoning" ;;
  Return {| ClassificationResult.id := custom_id;
            ClassificationResult.category := category;
            ClassificationResult.confidence := confidence;
            ClassificationResult.reasoning := reasoning |}.

(** The loop of lines 174-185, [results] being pushed to. *)
Fixpoint decode_lines (lines : list string)
  (results : list ClassificationResult.t)
  : Completion (list ClassificationResult.t) :=
  match lines with
  | [] => Return results
  | line :: rest =>
      result <- decode_line line ;;
      decode_lines rest (results ++ [result])
  end.

(** [batch.request_counts?.completed || 0]. *)
Definition completed_or_zero (b : Batch) : nat :=
  match request_counts_completed b with
  | Some n => n
  | None => 0
  end.

Definition is_failure_terminal (s : string) : bool :=
  String.eqb s "failed" || String.eqb s "expired" || String.eqb s "cancelled".

(** The callback of step 4, lines 159-202, on the [k]-th attempt. *)
Definition poll_attempt (openai : OpenAI) (batchId : string) (k : nat)
  : Completion BatchResult.t :=
  batch <- batches_retrieve openai batchId k ;;
  if String.eqb (status batch) "completed" then
    resultsText <- files_content openai (output_file_id batch) ;;
    results <- decode_lines (split_lines (trim resultsText)) [] ;;
    Return {| BatchResult.batchId := batch_id batch;
              BatchResult.results := results;
              BatchResult.usage :=
                {| prompt_tokens := completed_or_zero batch;
                   completion_tokens := completed_or_zero batch;
                   total_tokens := completed_or_zero batch |} |}
  else if is_failure_terminal (status batch) then
    Throw (Error ("Batch processing failed with status: " ++ status batch)%string)
  else
    Throw (Error ("Batch still processing, status: " ++ status batch)%string).

Definition poll_config : StepConfig :=
  {| retries_limit := 1440; retries_delay_minutes := 1; timeout_hours := 25 |}.

Definition poll_batch_completion (openai : OpenAI) (batchId : string)
  : StepRun BatchResult.t :=
  step_do poll_config (poll_attempt openai batchId).

End Poller.

(** ** Step "evaluate-and-log-results" *)

Module EvaluationRecord.
(** The object pushed to [evaluationResults], lines 274-280. *)
Record t : Type := make {
  id : Value;
  expected : Value;
  predicted : Value;
  correct : bool;
  confidence : Value
}.
End EvaluationRecord.

Module Langfuse.

(** The argument of [langfuse.trace] at lines 226-244 (name
    "rumor-classification").  [metadata_rest] is the object spread last into
    [metadata]. *)
Record PredictionTrace : Type := {
  input_text : Value;
  input_expectedCategory : Value;
  output_predictedCategory : Value;
  output_confidence : Value;
  output_reasoning : Value;
  metadata_datasetName : string;
  metadata_batchId : string;
  metadata_correct : bool;
  metadata_availableCategories : list Value;
  metadata_rest : Value
}.

(** The argument of [trace.generation] at lines 247-272 (name
    "openai-classification").  [user_article] is the value interpolated into
    the user message. *)
Record Generation : Type := {
  user_article : Value;
  generation_category : Value;
  generation_confidence : Value;
  generation_reasoning : Value;
  usage_promptTokens : nat;
  usage_completionTokens : nat;
  usage_totalTokens : nat
}.

(** The argument of [langfuse.trace] at lines 284-301 (name
    "batch-classification-experiment"). *)
Record ExperimentTrace : Type := {
  input_datasetName : string;
  input_totalItems : nat;
  input_categories : list Value;
  output_accuracy : float;
  output_correctPredictions : nat;
  output_totalPredictions : nat;
  output_batchId : string;
  metadata_usage : Usage;
  metadata_evaluationResults : list EvaluationRecord.t
}.

(** The calls the workflow makes on a Langfuse client. *)
Inductive Call : Type :=
| trace_prediction (body : PredictionTrace)
| generation (body : Generation)
| trace_experiment (body : ExperimentTrace)
| flushAsync.

Definition is_flush (c : Call) : bool :=
  match c with
  | flushAsync => true
  | _ => false
  end.

Definition is_trace (c : Call) : bool :=
  match c with
  | trace_prediction _ | trace_experiment _ => true
  | _ => false
  end.

(** Modelled from the spec: the trace sink behind the client is not part of
    the sources.  Section 6: it accepts trace records, and a flush operation
    guarantees durability of all previously submitted records before it
    returns. *)
Record Sink : Type := {
  unflushed : list Call;
  durable : list Call
}.

Definition fresh : Sink := {| unflushed := []; durable := [] |}.

Definition submit (s : Sink) (c : Call) : Sink :=
  match c with
  | flushAsync => {| unflushed := []; durable := durable s ++ unflushed s |}
  | record => {| unflushed := unflushed s ++ [record]; durable := durable s |}
  end.

Definition after (calls : list Call) : Sink := fold_left submit calls fresh.

End Langfuse.

Module Loop.
(** The variables of the stage that the loop of lines 217-281 updates, and
    the calls made on the client so far. *)
Record state : Type := make {
  evaluationResults : list EvaluationRecord.t;
  correctPredictions : nat;
  totalPredictions : nat;
  calls : list Langfuse.Call
}.
End Loop.

Module Evaluation.
(** What the callback of step 5 returns, lines 305-310. *)
Record t : Type := make {
  accuracy : float;
  correctPredictions : nat;
  totalPredictions : nat;
  evaluationResults : list EvaluationRecord.t
}.
End Evaluation.

(** [correctPredictions / totalPredictions], lines 292 and 306. *)
Definition accuracy_of (correctPredictions totalPredictions : nat) : float :=
  PrimFloat.div (number_of_nat correctPredictions)
                (number_of_nat totalPredictions).

(** [datasetItems.find((item) => item.id === result.id)]. *)
Definition find_item (datasetItems : list DatasetItem.t)
  (result : ClassificationResult.t) : option DatasetItem.t :=
  find (fun item => strict_eq (DatasetItem.id item)
                              (ClassificationResult.id result))
       datasetItems.

Section Evaluator.

Variable datasetName : string.
Variable categories : list CofactsCategory.t.
Variable datasetItems : list DatasetItem.t.
Variable batchResult : BatchResult.t.

Definition titles : list Value := map CofactsCategory.title categories.

(** [Math.floor(tokens / batchResult.results.length)], inside the loop, where
    the length is at least 1. *)
Definition share (tokens : nat) : nat :=
  Nat.div tokens (length (BatchResult.results batchResult)).

(** One iteration of the loop, lines 218-280. *)
Definition loop_body (st : Loop.state) (result : ClassificationResult.t)
  : Loop.state :=
  match find_item datasetItems result with
  | None => st
  | Some originalItem =>
      let isCorrect :=
        strict_eq (DatasetItem.expectedCategory originalItem)
                  (ClassificationResult.category result) in
      let trace :=
        {| Langfuse.input_text := DatasetItem.text originalItem;
           Langfuse.input_expectedCategory :=
             DatasetItem.expectedCategory originalItem;
           Langfuse.output_predictedCategory :=
             ClassificationResult.category result;
           Langfuse.output_confidence :=
             ClassificationResult.confidence result;
           Langfuse.output_reasoning := ClassificationResult.reasoning result;
           Langfuse.metadata_datasetName := datasetName;
           Langfuse.metadata_batchId := BatchResult.batchId batchResult;
           Langfuse.metadata_correct := isCorrect;
           Langfuse.metadata_availableCategories := titles;
           Langfuse.metadata_rest := DatasetItem.metadata originalItem |} in
      let generation :=
        {| Langfuse.user_article := DatasetItem.text originalItem;
           Langfuse.generation_category :=
             ClassificationResult.category result;
           Langfuse.generation_confidence :=
             ClassificationResult.confidence result;
           Langfuse.generation_reasoning :=
             ClassificationResult.reasoning result;
           Langfuse.usage_promptTokens :=
             share (prompt_tokens (BatchResult.usage batchResult));
           Langfuse.usage_completionTokens :=
             share (completion_tokens (BatchResult.usage batchResult));
           Langfuse.usage_totalTokens :=
             share (total_tokens (BatchResult.usage batchResult)) |} in
      {| Loop.evaluationResults :=
           Loop.evaluationResults st ++
           [ {| EvaluationRecord.id := ClassificationResult.id result;
                EvaluationRecord.expected :=
                  DatasetItem.expectedCategory originalItem;
                EvaluationRecord.predicted :=
                  ClassificationResult.category result;
                EvaluationRecord.correct := isCorrect;
                EvaluationRecord.confidence :=
                  ClassificationResult.confidence result |} ];
         Loop.correctPredictions :=
           if isCorrect then S (Loop.correctPredictions st)
           else Loop.correctPredictions st;
         Loop.totalPredictions := S (Loop.totalPredictions st);
         Loop.calls :=
           Loop.calls st ++
           [ Langfuse.trace_prediction trace; Langfuse.generation generation ]
      |}
  end.

Definition loop_start : Loop.state :=
  {| Loop.evaluationResults := [];
     Loop.correctPredictions := 0;
     Loop.totalPredictions := 0;
     Loop.calls := [] |}.

Definition loop_over (results : list ClassificationResult.t) (st : Loop.state)
  : Loop.state :=
  fold_left loop_body results st.

(** The summary trace of lines 284-301. *)
Definition experiment_trace (st : Loop.state) : Langfuse.ExperimentTrace :=
  {| Langfuse.input_datasetName := datasetName;
     Langfuse.input_totalItems := length datasetItems;
     Langfuse.input_categories := titles;
     Langfuse.output_accuracy :=
       accuracy_of (Loop.correctPredictions st) (Loop.totalPredictions st);
     Langfuse.output_correctPredictions := Loop.correctPredictions st;
     Langfuse.output_totalPredictions := Loop.totalPredictions st;
     Langfuse.output_batchId := BatchResult.batchId batchResult;
     Langfuse.metadata_usage := BatchResult.usage batchResult;
     Langfuse.metadata_evaluationResults := Loop.evaluationResults st |}.

(** The callback of step 5, lines 206-311: the value it returns and the
    calls it has made on its Langfuse client when it returns. *)
Definition evaluate_and_log_results : Evaluation.t * list Langfuse.Call :=
  let st := loop_over (BatchResult.results batchResult) loop_start in
  ({| Evaluation.accuracy :=
        accuracy_of (Loop.correctPredictions st) (Loop.totalPredictions st);
      Evaluation.correctPredictions := Loop.correctPredictions st;
      Evaluation.totalPredictions := Loop.totalPredictions st;
      Evaluation.evaluationResults := Loop.evaluationResults st |},
   Loop.calls st ++
   [ Langfuse.trace_experiment (experiment_trace st); Langfuse.flushAsync ]).

End Evaluator.

(** ** The end of [run]: steps 4 and 5 and the returned object *)

Module RunSummary.
(** The object returned at lines 313-322. *)
Record t : Type := make {
  datasetName : string;
  itemsProcessed : nat;
  batchId : string;
  accuracy : float;
  correctPredictions : nat;
  totalPredictions : nat;
  categoriesUsed : list Value;
  usage : Usage
}.
End RunSummary.

(** [run] from line 148 on, given the values of the steps before it
    ([categories], [datasetItems], [batchJob.batchId]): the outcome of the
    run and the calls made on the Langfuse client. *)
Definition run_from_poll (JSON_parse : Value -> option Value)
  (openai : OpenAI) (datasetName : string)
  (categories : list CofactsCategory.t) (datasetItems : list DatasetItem.t)
  (batchJob_batchId : string)
  : Completion RunSummary.t * list Langfuse.Call :=
  match outcome (poll_batch_completion JSON_parse openai batchJob_batchId) with
  | Throw e => (Throw e, [])
  | Return batchResult =>
      let (evaluation, calls) :=
        evaluate_and_log_results datasetName categories datasetItems
                                 batchResult in
      (Return {| RunSummary.datasetName := datasetName;
                 RunSummary.itemsProcessed := length datasetItems;
                 RunSummary.batchId := BatchResult.batchId batchResult;
                 RunSummary.accuracy := Evaluation.accuracy evaluation;
                 RunSummary.correctPredictions :=
                   Evaluation.correctPredictions evaluation;
                 RunSummary.totalPredictions :=
                   Evaluation.totalPredictions evaluation;
                 RunSummary.categoriesUsed :=
                   map CofactsCategory.title categories;
                 RunSummary.usage := BatchResult.usage batchResult |},
       calls)
  end.

(** ** Vocabulary of the statements *)

(** The value returned by step 5. *)
Definition evaluation (datasetName : string)
  (categories : list CofactsCategory.t) (datasetItems : list DatasetItem.t)
  (batchResult : BatchResult.t) : Evaluation.t :=
  fst (evaluate_and_log_results datasetName categories datasetItems
                                batchResult).

(** The calls step 5 has made on its Langfuse client when it returns. *)
Definition evaluation_calls (datasetName : string)
  (categories : list CofactsCategory.t) (datasetItems : list DatasetItem.t)
  (batchResult : BatchResult.t) : list Langfuse.Call :=
  snd (evaluate_and_log_results datasetName categories datasetItems
                                batchResult).

(** The same batch result with another list of results. *)
Definition with_results (batchResult : BatchResult.t)
  (results : list ClassificationResult.t) : BatchResult.t :=
  {| BatchResult.batchId := BatchResult.batchId batchResult;
     BatchResult.results := results;
     BatchResult.usage := BatchResult.usage batchResult |}.

(** How many evaluation records carry the id of [item]. *)
Definition records_for (item : DatasetItem.t)
  (records : list EvaluationRecord.t) : nat :=
  length (filter (fun record => strict_eq (DatasetItem.id item)
                                          (EvaluationRecord.id record))
                 records).

(** How many classification results carry the id of [item]. *)
Definition results_for (item : DatasetItem.t)
  (results : list ClassificationResult.t) : nat :=
  length (filter (fun result => strict_eq (DatasetItem.id item)
                                          (ClassificationResult.id result))
                 results).

(** The accuracy of the data model in the words of the specification:
    [correctCount / totalCount], undefined (not computed) when
    [totalCount = 0]. *)
Definition guarded_accuracy (correctCount totalCount : nat) : option float :=
  match totalCount with
  | O => None
  | S _ => Some (accuracy_of correctCount totalCount)
  end.

(** The accuracy a step-5 value reports is the guarded one. *)
Definition accuracy_is_guarded (ev : Evaluation.t) : Prop :=
  guarded_accuracy (Evaluation.correctPredictions ev)
                   (Evaluation.totalPredictions ev)
  = Some (Evaluation.accuracy ev).

(** A provider whose successive status queries answer with the statuses of
    [script] and from then on with [final], and whose output file is
    [file]. *)
Definition scripted_openai (script : list string) (final : string)
  (file : Completion string) : OpenAI :=
  {| batches_retrieve := fun batchId k =>
       Return {| batch_id := batchId;
                 status := nth k script final;
                 output_file_id := Some "file-output";
                 request_counts_completed := Some 1 |};
     files_content := fun _ => file |}.

(** A line of the result file that cannot be parsed: the envelope is not
    JSON, or the message content found in it is not. *)
Definition line_unparseable (JSON_parse : Value -> option Value)
  (line : string) : Prop :=
  JSON_parse (JString line) = None \/
  exists response content,
    JSON_parse (JString line) = Some response /\
    message_content response = Return content /\
    JSON_parse content = None.

(** The exceptions of decoding: [JSON.parse] failing, or a property read
    from [undefined] or [null]. *)
Definition is_decode_error (e : Exn) : bool :=
  match e with
  | SyntaxError | TypeError => true
  | Error _ => false
  end.

(** ** Sample data *)

Definition item_a (expectedCategory : Value) : DatasetItem.t :=
  {| DatasetItem.id := JString "a";
     DatasetItem.text := JString "...";
     DatasetItem.expectedCategory := expectedCategory;
     DatasetItem.metadata := JUndefined |}.

Definition result_for (id category : string) : ClassificationResult.t :=
  {| ClassificationResult.id := JString id;
     ClassificationResult.category := JString category;
     ClassificationResult.confidence := JUndefined;
     ClassificationResult.reasoning := JUndefined |}.

Definition batch_of (results : list ClassificationResult.t) : BatchResult.t :=
  {| BatchResult.batchId := "batch_1";
     BatchResult.results := results;
     BatchResult.usage :=
       {| prompt_tokens := 1; completion_tokens := 1; total_tokens := 1 |} |}.

Definition sample_categories : list CofactsCategory.t :=
  [ {| CofactsCategory.id := JString "c0";
       CofactsCategory.title := JString "false" |};
    {| CofactsCategory.id := JString "c1";
       CofactsCategory.title := JString "true" |} ].

(** One well-formed line of a result file and an instance of [JSON.parse]
    that knows this line and its message content, and nothing else. *)
Definition sample_line : string := "{envelope of request a}".
Definition sample_content : string := "{classification of request a}".

Definition sample_parse (v : Value) : option Value :=
  match v with
  | JString s =>
      if String.eqb s sample_line then
        Some (JObject
          [ ("custom_id", JString "a");
            ("response", JObject [ ("body", JObject [ ("choices", JArray
               [ JObject [ ("message", JObject
                   [ ("content", JString sample_content) ]) ] ]) ]) ]) ])
      else if String.eqb s sample_content then
        Some (JObject [ ("category", JString "true");
                        ("confidence", JNumber 1);
                        ("reasoning", JString "because") ])
      else None
  | _ => None
  end.

(** A call that submits a record. *)
Definition not_flush (c : Langfuse.Call) : bool := negb (Langfuse.is_flush c).

(** What the loop of step 5 computes apart from the calls. *)
Definition scores (st : Loop.state)
  : list EvaluationRecord.t * nat * nat :=
  (Loop.evaluationResults st, Loop.correctPredictions st,
   Loop.totalPredictions st).

(** ** The start of [run]: the dataset name and steps 1 and 2 *)

(** [event.payload.datasetName || this.env.DATASET_NAME], line 35; the
    [datasetName] of the payload is optional. *)
Definition datasetName_of (payload_datasetName : option string)
  (env_DATASET_NAME : string) : string :=
  match payload_datasetName with
  | Some name => if String.eqb name "" then env_DATASET_NAME else name
  | None => env_DATASET_NAME
  end.

(** What [fetch] resolves to, as far as step "load-cofacts-categories" reads
    it: [ok], [statusText] and the outcome of [json()]. *)
Record Response : Type := {
  ok : bool;
  statusText : string;
  json : Completion Value
}.

(** The callback of step "load-cofacts-categories", lines 39-56, given what
    [fetch] does.  The value is returned as it is found: the cast to
    [CofactsCategory[]] checks nothing.  [data] and [ListCategories] are not
    inherited from a prototype either. *)
Definition load_cofacts_categories (fetched : Completion Response)
  : Completion Value :=
  response <- fetched ;;
  if negb (ok response) then
    Throw (Error ("Failed to fetch categories: " ++ statusText response)%string)
  else
    data <- json response ;;
    inner <- get data "data" ;;
    get inner "ListCategories".

Section Loader.

(** The text that [`${error}`] gives for a caught exception, a builtin
    conversion. *)
Variable error_text : Exn -> string.

(** The callback of step "load-langfuse-dataset", lines 57-76, given what
    [langfuse.getDataset] does; [getDataset name] is the [items] of the
    dataset. *)
Definition load_langfuse_dataset
  (getDataset : string -> Completion (list Value)) (datasetName : string)
  : Completion (list DatasetItem.t) :=
  match (items <- getDataset datasetName ;; normalize_items items) with
  | Return datasetItems => Return datasetItems
  | Throw error =>
      Throw (Error ("Failed to load dataset '" ++ datasetName ++ "': "
                    ++ error_text error)%string)
  end.

End Loader.

(** [lines.join('\n')] and the like, for an array of strings. *)
Fixpoint join (separator : string) (parts : list string) : string :=
  match parts with
  | [] => EmptyString
  | [part] => part
  | part :: rest => (part ++ separator ++ join separator rest)%string
  end.

Definition newline : string := String LF EmptyString.

(** The system message of lines 96-102. *)
Definition system_content (categoryList : string) : string :=
  ("You are a rumor classification expert. Classify the given text into one of these categories from Cofacts:"
   ++ newline ++ categoryList ++ newline
   ++ newline ++ "Respond with a JSON object containing:"
   ++ newline ++ "- category: the exact category title from the list above"
   ++ newline ++ "- confidence: confidence score (0.0-1.0)"
   ++ newline ++ "- reasoning: brief explanation for the classification")%string.

Module BatchUpload.
(** What the callback of step 2 returns, lines 123-126. *)
Record t : Type := make {
  fileId : string;
  requestCount : nat
}.
End BatchUpload.

Section Upload.

(** The conversion to a string that a template literal applies to an
    interpolated value, and [JSON.stringify] on a request: builtins. *)
Variable ToString : Value -> Completion string.
Variable JSON_stringify : Value -> string.

(** [`- ${cat.title}`], line 85. *)
Definition category_line (cat : CofactsCategory.t) : Completion string :=
  title <- ToString (CofactsCategory.title cat) ;;
  Return ("- " ++ title)%string.

(** The callback of [datasetItems.map], lines 87-112. *)
#[warnings="-inexact-float"]
Definition batch_request (categoryList : string) (item : DatasetItem.t)
  : Completion Value :=
  text <- ToString (DatasetItem.text item) ;;
  Return (JObject
    [ ("custom_id", DatasetItem.id item);
      ("method", JString "POST");
      ("url", JString "/v1/chat/completions");
      ("body", JObject
         [ ("model", JString "gpt-4o-mini");
           ("messages", JArray
              [ JObject [ ("role", JString "system");
                          ("content", JString (system_content categoryList)) ];
                JObject [ ("role", JString "user");
                          ("content",
                           JString ("Classify this rumor article: " ++ text)%string) ] ]);
           ("response_format", JObject [ ("type", JString "json_object") ]);
           ("temperature", JNumber 0.1) ]) ]).

(** The callback of step "upload-batch-to-openai", lines 80-127;
    [files_create content] is the [id] of the file that
    [openai.files.create] answers for a file with this content. *)
Definition upload_batch_to_openai (files_create : string -> Completion string)
  (categories : list CofactsCategory.t) (datasetItems : list DatasetItem.t)
  : Completion BatchUpload.t :=
  category_lines <- map_throwing category_line categories ;;
  let categoryList := join newline category_lines in
  batchRequests <- map_throwing (batch_request categoryList) datasetItems ;;
  let jsonlContent := join newline (map JSON_stringify batchRequests) in
  fileId <- files_create jsonlContent ;;
  Return {| BatchUpload.fileId := fileId;
            BatchUpload.requestCount := length batchRequests |}.

End Upload.

(** ** More vocabulary and sample data *)

(** A string without a line feed. *)
Fixpoint single_line (s : string) : bool :=
  match s with
  | EmptyString => true
  | String c rest => negb (Ascii.eqb c LF) && single_line rest
  end.

(** A string of white space only. *)
Fixpoint blank (s : string) : bool :=
  match s with
  | EmptyString => true
  | String c rest => is_white_space c && blank rest
  end.

(** The result has the id of some loaded item. *)
Definition matched (datasetItems : list DatasetItem.t)
  (result : ClassificationResult.t) : bool :=
  match find_item datasetItems result with
  | Some _ => true
  | None => false
  end.

(** Some loaded item has the id of the result: the test of line 218, without
    the search. *)
Definition has_loaded_id (datasetItems : list DatasetItem.t)
  (result : ClassificationResult.t) : bool :=
  existsb (fun item => strict_eq (DatasetItem.id item)
                                 (ClassificationResult.id result))
          datasetItems.

(** The own property [key] that spreading [v] into an object literal copies,
    for a [key] that is not an array index: only an object has one. *)
Definition own_property (v : Value) (key : string) : option Value :=
  match v with
  | JObject props =>
      option_map snd (find (fun kv => String.eqb (fst kv) key) props)
  | _ => None
  end.

(** The expected and the predicted category that a trace of a prediction
    carries, in its [input] and [output]. *)
Definition logged_labels (c : Langfuse.Call) : option (Value * Value) :=
  match c with
  | Langfuse.trace_prediction body =>
      Some (Langfuse.input_expectedCategory body,
            Langfuse.output_predictedCategory body)
  | _ => None
  end.

(** The [correct] member of the [metadata] that a trace of a prediction
    carries, lines 237-243: the flag of the loop, unless the metadata of the
    item, spread last, has a [correct] property of its own. *)
Definition logged_correct (c : Langfuse.Call) : option Value :=
  match c with
  | Langfuse.trace_prediction body =>
      Some (match own_property (Langfuse.metadata_rest body) "correct" with
            | Some overriding => overriding
            | None => JBool (Langfuse.metadata_correct body)
            end)
  | _ => None
  end.

(** The labels of an evaluation record. *)
Definition recorded_labels (r : EvaluationRecord.t) : Value * Value :=
  (EvaluationRecord.expected r, EvaluationRecord.predicted r).

(** A dataset item with the id "b", which the sample result file does not
    mention, and with a [correct] property in its metadata. *)
Definition item_b (expectedCategory : Value) : DatasetItem.t :=
  {| DatasetItem.id := JString "b";
     DatasetItem.text := JString "...";
     DatasetItem.expectedCategory := expectedCategory;
     DatasetItem.metadata := JObject [ ("correct", JString "unknown") ] |}.

(** The tokens a call attributes to one generation. *)
Definition attributed_tokens (c : Langfuse.Call) : nat :=
  match c with
  | Langfuse.generation body => Langfuse.usage_totalTokens body
  | _ => 0
  end.

Fixpoint filter_some {A : Type} (l : list (option A)) : list A :=
  match l with
  | [] => []
  | Some a :: rest => a :: filter_some rest
  | None :: rest => filter_some rest
  end.

Definition is_nullish (v : Value) : bool :=
  match v with
  | JUndefined | JNull => true
  | _ => false
  end.

(** Instances of the two builtins of step 2, enough for examples. *)
Definition sample_ToString (v : Value) : Completion string :=
  match v with
  | JString s => Return s
  | JUndefined => Return "undefined"
  | JNull => Return "null"
  | JBool true => Return "true"
  | JBool false => Return "false"
  | _ => Return "[object Object]"
  end.

Definition sample_stringify (v : Value) : string :=
  match opt_get v "custom_id" with
  | JString _ => "{request with a string id}"
  | _ => "{request}"
  end.

(** * Properties *)

(** ** The loop of step 5 *)

Section LoopFacts.

Variable datasetName : string.
Variable categories : list CofactsCategory.t.
Variable datasetItems : list DatasetItem.t.

Local Abbreviation body := (loop_body datasetName categories datasetItems).
Local Abbreviation over := (loop_over datasetName categories datasetItems).

Lemma loop_body_unmatched (br : BatchResult.t) (st : Loop.state)
  (r : ClassificationResult.t) :
  find_item datasetItems r = None -> body br st r = st.
Proof.
  intros Hfind. unfold loop_body. now rewrite Hfind.
Qed.

Lemma find_item_none (r : ClassificationResult.t) :
  (forall item, In item datasetItems ->
     strict_eq (DatasetItem.id item) (ClassificationResult.id r) = false) ->
  find_item datasetItems r = None.
Proof.
  intros Hall. unfold find_item.
  induction datasetItems as [|item rest IH]; simpl; [reflexivity|].
  rewrite (Hall item (or_introl eq_refl)).
  apply IH. intros other Hin. apply Hall. now right.
Qed.

Lemma find_item_some (item : DatasetItem.t) (r : ClassificationResult.t) :
  In item datasetItems ->
  strict_eq (DatasetItem.id item) (ClassificationResult.id r) = true ->
  exists first, find_item datasetItems r = Some first.
Proof.
  intros Hin Heq. unfold find_item.
  destruct (find _ datasetItems) as [first|] eqn:Hfind.
  - now exists first.
  - pose proof (find_none _ _ Hfind item Hin) as Hno. simpl in Hno.
    congruence.
Qed.

(** The scores after an iteration depend on the scores before it and on the
    result, not on the batch the result came with. *)
Lemma loop_body_scores (br br' : BatchResult.t) (st st' : Loop.state)
  (r : ClassificationResult.t) :
  scores st = scores st' -> scores (body br st r) = scores (body br' st' r).
Proof.
  unfold scores, loop_body. intros Heq. injection Heq as Hrec Hcor Htot.
  destruct (find_item datasetItems r) as [item|]; simpl.
  - rewrite Hrec, Hcor, Htot. reflexivity.
  - now rewrite Hrec, Hcor, Htot.
Qed.

Lemma loop_over_scores (br br' : BatchResult.t)
  (results : list ClassificationResult.t) :
  forall st st', scores st = scores st' ->
    scores (over br results st) = scores (over br' results st').
Proof.
  unfold loop_over.
  induction results as [|r rest IH]; intros st st' Heq; simpl.
  - exact Heq.
  - apply IH. now apply loop_body_scores.
Qed.

(** An iteration extends the state it is given. *)
Lemma loop_body_shift (br : BatchResult.t) (st : Loop.state)
  (r : ClassificationResult.t) :
  Loop.evaluationResults (body br st r)
  = Loop.evaluationResults st
    ++ Loop.evaluationResults (body br (loop_start) r) /\
  Loop.correctPredictions (body br st r)
  = Loop.correctPredictions st
    + Loop.correctPredictions (body br (loop_start) r) /\
  Loop.totalPredictions (body br st r)
  = Loop.totalPredictions st + Loop.totalPredictions (body br (loop_start) r) /\
  Loop.calls (body br st r)
  = Loop.calls st ++ Loop.calls (body br (loop_start) r).
Proof.
  unfold loop_body.
  destruct (find_item datasetItems r) as [item|]; simpl.
  - repeat split; try reflexivity.
    + destruct (strict_eq _ _); lia.
    + lia.
  - rewrite !app_nil_r. repeat split; lia.
Qed.

Lemma loop_over_shift (br : BatchResult.t)
  (results : list ClassificationResult.t) :
  forall st,
    Loop.evaluationResults (over br results st)
    = Loop.evaluationResults st
      ++ Loop.evaluationResults (over br results (loop_start)) /\
    Loop.correctPredictions (over br results st)
    = Loop.correctPredictions st
      + Loop.correctPredictions (over br results (loop_start)) /\
    Loop.totalPredictions (over br results st)
    = Loop.totalPredictions st
      + Loop.totalPredictions (over br results (loop_start)) /\
    Loop.calls (over br results st)
    = Loop.calls st ++ Loop.calls (over br results (loop_start)).
Proof.
  unfold loop_over.
  induction results as [|r rest IH]; intros st; simpl.
  - rewrite !app_nil_r. repeat split; lia.
  - destruct (IH (body br st r)) as (Hrec & Hcor & Htot & Hcalls).
    destruct (IH (body br (loop_start) r)) as (Hrec0 & Hcor0 & Htot0 & Hcalls0).
    destruct (loop_body_shift br st r) as (Brec & Bcor & Btot & Bcalls).
    rewrite Hrec, Hcor, Htot, Hcalls, Hrec0, Hcor0, Htot0, Hcalls0.
    rewrite Brec, Bcor, Btot, Bcalls.
    rewrite <- !app_assoc. repeat split; lia.
Qed.

Lemma loop_over_app (br : BatchResult.t)
  (before after_ : list ClassificationResult.t) (st : Loop.state) :
  over br (before ++ after_) st = over br after_ (over br before st).
Proof.
  unfold loop_over. apply fold_left_app.
Qed.

(** The counter of correct predictions never exceeds the counter of
    predictions, and the latter counts the records. *)
Lemma loop_over_counters (br : BatchResult.t)
  (results : list ClassificationResult.t) :
  forall st,
    Loop.correctPredictions st <= Loop.totalPredictions st ->
    Loop.totalPredictions st = length (Loop.evaluationResults st) ->
    Loop.correctPredictions (over br results st)
    <= Loop.totalPredictions (over br results st) /\
    Loop.totalPredictions (over br results st)
    = length (Loop.evaluationResults (over br results st)).
Proof.
  unfold loop_over.
  induction results as [|r rest IH]; intros st Hle Hlen; simpl.
  - now split.
  - apply IH; unfold loop_body;
      destruct (find_item datasetItems r) as [item|]; simpl; try assumption.
    + destruct (strict_eq _ _); lia.
    + rewrite length_app. simpl. lia.
Qed.

End LoopFacts.

Lemma evaluation_of_scores (ds ds' : string)
  (cats cats' : list CofactsCategory.t) (items items' : list DatasetItem.t)
  (br br' : BatchResult.t) :
  scores (loop_over ds cats items br (BatchResult.results br) (loop_start))
  = scores (loop_over ds' cats' items' br' (BatchResult.results br')
                      (loop_start)) ->
  evaluation ds cats items br = evaluation ds' cats' items' br'.
Proof.
  unfold evaluation, evaluate_and_log_results, scores. simpl.
  intros Heq. injection Heq as Hrec Hcor Htot.
  now rewrite Hrec, Hcor, Htot.
Qed.

(** ** Unmatched results *)

(** C5. A classification result whose id is the id of no loaded dataset item
    leaves the variables of the loop as they are, and step 5 returns what it
    returns for the same results without it: no evaluation record for it,
    and neither [correctPredictions] nor [totalPredictions] incremented. *)
Theorem unmatched_result_is_dropped :
  forall (ds : string) (cats : list CofactsCategory.t)
         (items : list DatasetItem.t) (br : BatchResult.t)
         (before : list ClassificationResult.t) (r : ClassificationResult.t)
         (after_ : list ClassificationResult.t),
    (forall item, In item items ->
       strict_eq (DatasetItem.id item) (ClassificationResult.id r) = false) ->
    BatchResult.results br = before ++ r :: after_ ->
    (forall st, loop_body ds cats items br st r = st) /\
    evaluation ds cats items br
    = evaluation ds cats items (with_results br (before ++ after_)).
Proof.
  intros ds cats items br before r after_ Hnone Hres.
  pose proof (find_item_none items r Hnone) as Hfind.
  split.
  - intros st. now apply loop_body_unmatched.
  - apply evaluation_of_scores. rewrite Hres. simpl.
    assert (Hskip :
      loop_over ds cats items br (before ++ r :: after_) (loop_start)
      = loop_over ds cats items br (before ++ after_) (loop_start)).
    { rewrite !loop_over_app. unfold loop_over at 1. simpl.
      now rewrite (loop_body_unmatched ds cats items br _ r Hfind). }
    rewrite Hskip. now apply loop_over_scores.
Qed.

Lemma unmatched_result_is_dropped_witness :
  evaluation "ds" sample_categories [item_a (JString "true")]
    (batch_of [result_for "a" "true"; result_for "b" "true"])
  = evaluation "ds" sample_categories [item_a (JString "true")]
      (with_results
         (batch_of [result_for "a" "true"; result_for "b" "true"])
         ([result_for "a" "true"] ++ [])).
Proof.
  apply (unmatched_result_is_dropped "ds" sample_categories
           [item_a (JString "true")]
           (batch_of [result_for "a" "true"; result_for "b" "true"])
           [result_for "a" "true"] (result_for "b" "true") []).
  - intros item [Hitem | []]. subst item. reflexivity.
  - reflexivity.
Defined.

(** ** Items without a ground-truth label *)

Lemma evaluation_split (ds : string) (cats : list CofactsCategory.t)
  (items : list DatasetItem.t) (br : BatchResult.t)
  (before : list ClassificationResult.t) (r : ClassificationResult.t)
  (after_ : list ClassificationResult.t) :
  BatchResult.results br = before ++ r :: after_ ->
  let ev := evaluation ds cats items br in
  let ev_before := evaluation ds cats items (with_results br before) in
  let ev_after := evaluation ds cats items (with_results br after_) in
  let one := loop_body ds cats items br (loop_start) r in
  Evaluation.evaluationResults ev
  = Evaluation.evaluationResults ev_before
    ++ Loop.evaluationResults one ++ Evaluation.evaluationResults ev_after /\
  Evaluation.totalPredictions ev
  = Evaluation.totalPredictions ev_before + Loop.totalPredictions one
    + Evaluation.totalPredictions ev_after /\
  Evaluation.correctPredictions ev
  = Evaluation.correctPredictions ev_before + Loop.correctPredictions one
    + Evaluation.correctPredictions ev_after.
Proof.
  intros Hres. unfold evaluation, evaluate_and_log_results. simpl.
  rewrite Hres, loop_over_app.
  pose proof (loop_over_scores ds cats items (with_results br before) br
                before _ _ (eq_refl (scores (loop_start)))) as Hb.
  pose proof (loop_over_scores ds cats items (with_results br after_) br
                after_ _ _ (eq_refl (scores (loop_start)))) as Ha.
  unfold scores in Hb, Ha.
  injection Hb as Hb1 Hb2 Hb3. injection Ha as Ha1 Ha2 Ha3.
  rewrite Hb1, Hb2, Hb3, Ha1, Ha2, Ha3.
  set (st := loop_over ds cats items br before (loop_start)).
  change (loop_over ds cats items br (r :: after_) st)
    with (loop_over ds cats items br after_ (loop_body ds cats items br st r)).
  destruct (loop_over_shift ds cats items br after_
              (loop_body ds cats items br st r)) as (Srec & Scor & Stot & _).
  destruct (loop_body_shift ds cats items br st r) as (Brec & Bcor & Btot & _).
  rewrite Srec, Scor, Stot, Brec, Bcor, Btot.
  rewrite <- !app_assoc. repeat split; lia.
Qed.

(** C3, as the code has it. A classification result whose matching dataset
    item has no [expectedCategory] is scored like any other matched result:
    step 5 emits one evaluation record for it, with [expected] undefined, and
    increments [totalPredictions]; [correctPredictions] is incremented only
    when the predicted category is undefined as well. *)
Theorem unlabelled_item_is_scored :
  forall (ds : string) (cats : list CofactsCategory.t)
         (items : list DatasetItem.t) (br : BatchResult.t)
         (before : list ClassificationResult.t) (r : ClassificationResult.t)
         (after_ : list ClassificationResult.t) (item : DatasetItem.t),
    find_item items r = Some item ->
    DatasetItem.expectedCategory item = JUndefined ->
    BatchResult.results br = before ++ r :: after_ ->
    let ev := evaluation ds cats items br in
    let ev_before := evaluation ds cats items (with_results br before) in
    let ev_after := evaluation ds cats items (with_results br after_) in
    let undefined_too :=
      match ClassificationResult.category r with
      | JUndefined => true
      | _ => false
      end in
    Evaluation.evaluationResults ev
    = Evaluation.evaluationResults ev_before
      ++ [ {| EvaluationRecord.id := ClassificationResult.id r;
              EvaluationRecord.expected := JUndefined;
              EvaluationRecord.predicted := ClassificationResult.category r;
              EvaluationRecord.correct := undefined_too;
              EvaluationRecord.confidence :=
                ClassificationResult.confidence r |} ]
      ++ Evaluation.evaluationResults ev_after /\
    Evaluation.totalPredictions ev
    = Evaluation.totalPredictions ev_before + 1
      + Evaluation.totalPredictions ev_after /\
    Evaluation.correctPredictions ev
    = Evaluation.correctPredictions ev_before
      + (if undefined_too then 1 else 0)
      + Evaluation.correctPredictions ev_after.
Proof.
  intros ds cats items br before r after_ item Hfind Hexp Hres.
  pose proof (evaluation_split ds cats items br before r after_ Hres) as Hsplit.
  unfold loop_body in Hsplit. rewrite Hfind, Hexp in Hsplit.
  cbn [Loop.evaluationResults Loop.totalPredictions Loop.correctPredictions
       loop_start app] in Hsplit.
  assert (Hund : strict_eq JUndefined (ClassificationResult.category r)
                 = match ClassificationResult.category r with
                   | JUndefined => true
                   | _ => false
                   end)
    by now destruct (ClassificationResult.category r).
  rewrite Hund in Hsplit.
  destruct Hsplit as (Hrec & Htot & Hcor).
  cbv zeta. split; [exact Hrec | split; [exact Htot |]].
  rewrite Hcor. now destruct (ClassificationResult.category r).
Qed.

Lemma unlabelled_item_is_scored_witness :
  Evaluation.totalPredictions
    (evaluation "ds" sample_categories [item_a JUndefined]
                (batch_of [result_for "a" "true"]))
  = Evaluation.totalPredictions
      (evaluation "ds" sample_categories [item_a JUndefined]
                  (with_results (batch_of [result_for "a" "true"]) []))
    + 1
    + Evaluation.totalPredictions
        (evaluation "ds" sample_categories [item_a JUndefined]
                    (with_results (batch_of [result_for "a" "true"]) [])).
Proof.
  apply (unlabelled_item_is_scored "ds" sample_categories [item_a JUndefined]
           (batch_of [result_for "a" "true"]) [] (result_for "a" "true") []
           (item_a JUndefined)); reflexivity.
Defined.

(** C3 as stated fails: the only loaded item has no [expectedCategory], the
    only result matches it, and yet step 5 returns one evaluation record and
    [totalPredictions = 1]. *)
Lemma unlabelled_item_counterexample :
  let items := [item_a JUndefined] in
  let r := result_for "a" "true" in
  let ev := evaluation "ds" sample_categories items (batch_of [r]) in
  find_item items r = Some (item_a JUndefined) /\
  DatasetItem.expectedCategory (item_a JUndefined) = JUndefined /\
  Evaluation.evaluationResults ev
  = [ {| EvaluationRecord.id := JString "a";
         EvaluationRecord.expected := JUndefined;
         EvaluationRecord.predicted := JString "true";
         EvaluationRecord.correct := false;
         EvaluationRecord.confidence := JUndefined |} ] /\
  Evaluation.totalPredictions ev = 1 /\
  Evaluation.correctPredictions ev = 0.
Proof.
  repeat split.
Qed.

(** ** Records per dataset item *)

Lemma records_for_app (item : DatasetItem.t)
  (l1 l2 : list EvaluationRecord.t) :
  records_for item (l1 ++ l2) = records_for item l1 + records_for item l2.
Proof.
  unfold records_for. now rewrite filter_app, length_app.
Qed.

(** One iteration emits at most one record, and it carries the id of the
    result. *)
Lemma records_for_iteration (ds : string) (cats : list CofactsCategory.t)
  (items : list DatasetItem.t) (br : BatchResult.t)
  (item : DatasetItem.t) (r : ClassificationResult.t) :
  records_for item
    (Loop.evaluationResults (loop_body ds cats items br (loop_start) r))
  = match find_item items r with
    | Some _ =>
        if strict_eq (DatasetItem.id item) (ClassificationResult.id r)
        then 1 else 0
    | None => 0
    end.
Proof.
  unfold loop_body, records_for.
  destruct (find_item items r) as [first|]; simpl; [|reflexivity].
  now destruct (strict_eq (DatasetItem.id item) (ClassificationResult.id r)).
Qed.

Lemma records_for_le_results_for (ds : string)
  (cats : list CofactsCategory.t) (items : list DatasetItem.t)
  (br : BatchResult.t) (item : DatasetItem.t)
  (results : list ClassificationResult.t) :
  records_for item
    (Loop.evaluationResults (loop_over ds cats items br results (loop_start)))
  <= results_for item results.
Proof.
  induction results as [|r rest IH]; [apply Nat.le_refl|].
  change (loop_over ds cats items br (r :: rest) (loop_start))
    with (loop_over ds cats items br rest
            (loop_body ds cats items br (loop_start) r)).
  destruct (loop_over_shift ds cats items br rest
              (loop_body ds cats items br (loop_start) r)) as (Hrec & _).
  rewrite Hrec, records_for_app, records_for_iteration.
  unfold results_for in *. simpl.
  destruct (find_item items r);
    destruct (strict_eq (DatasetItem.id item) (ClassificationResult.id r));
    simpl; lia.
Qed.

(** For a loaded item the two counts are the same: every result that carries
    its id is matched by some item. *)
Lemma records_for_loaded_item (ds : string)
  (cats : list CofactsCategory.t) (items : list DatasetItem.t)
  (br : BatchResult.t) (item : DatasetItem.t) :
  In item items ->
  records_for item (Evaluation.evaluationResults (evaluation ds cats items br))
  = results_for item (BatchResult.results br).
Proof.
  intros Hin. unfold evaluation, evaluate_and_log_results. simpl.
  induction (BatchResult.results br) as [|r rest IH]; [reflexivity|].
  change (loop_over ds cats items br (r :: rest) (loop_start))
    with (loop_over ds cats items br rest
            (loop_body ds cats items br (loop_start) r)).
  destruct (loop_over_shift ds cats items br rest
              (loop_body ds cats items br (loop_start) r)) as (Hrec & _).
  rewrite Hrec, records_for_app, records_for_iteration, IH.
  unfold results_for. simpl.
  destruct (strict_eq (DatasetItem.id item) (ClassificationResult.id r))
    eqn:Heq.
  - destruct (find_item_some items item r Hin Heq) as [first Hfirst].
    now rewrite Hfirst.
  - now destruct (find_item items r).
Qed.

Lemma find_item_has_loaded_id (items : list DatasetItem.t)
  (r : ClassificationResult.t) :
  has_loaded_id items r
  = match find_item items r with
    | Some _ => true
    | None => false
    end.
Proof.
  unfold has_loaded_id, find_item.
  induction items as [|item rest IH]; simpl; [reflexivity|].
  destruct (strict_eq (DatasetItem.id item) (ClassificationResult.id r));
    [reflexivity | exact IH].
Qed.

(** The loop pushes one record for each result that has the id of a loaded
    item and none for the others. *)
Lemma records_count_loaded_ids (ds : string) (cats : list CofactsCategory.t)
  (items : list DatasetItem.t) (br : BatchResult.t)
  (results : list ClassificationResult.t) :
  length (Loop.evaluationResults
            (loop_over ds cats items br results (loop_start)))
  = length (filter (has_loaded_id items) results).
Proof.
  induction results as [|r rest IH]; [reflexivity|].
  change (loop_over ds cats items br (r :: rest) (loop_start))
    with (loop_over ds cats items br rest
            (loop_body ds cats items br (loop_start) r)).
  destruct (loop_over_shift ds cats items br rest
              (loop_body ds cats items br (loop_start) r)) as (Hrec & _).
  rewrite Hrec, length_app, IH. simpl.
  rewrite find_item_has_loaded_id. unfold loop_body.
  destruct (find_item items r); reflexivity.
Qed.

(** C4, as the code has it. Step 5 emits exactly one evaluation record per
    classification result that has the id of a loaded item, and none for the
    others; so for every loaded item the records that carry its id are
    exactly as many as the results that carry it: at most one when at most
    one result of the batch carries that id, and two when two do. *)
Theorem at_most_one_record_for_distinct_results :
  forall (ds : string) (cats : list CofactsCategory.t)
         (items : list DatasetItem.t) (br : BatchResult.t)
         (item : DatasetItem.t),
    In item items ->
    let records :=
      Evaluation.evaluationResults (evaluation ds cats items br) in
    length records
    = length (filter (has_loaded_id items) (BatchResult.results br)) /\
    records_for item records = results_for item (BatchResult.results br) /\
    (results_for item (BatchResult.results br) <= 1 ->
     records_for item records <= 1).
Proof.
  intros ds cats items br item Hin records.
  pose proof (records_for_loaded_item ds cats items br item Hin) as Hsame.
  fold records in Hsame.
  split; [|split].
  - unfold records, evaluation, evaluate_and_log_results. simpl.
    apply records_count_loaded_ids.
  - exact Hsame.
  - intros Hone. rewrite Hsame. exact Hone.
Qed.

Lemma at_most_one_record_for_distinct_results_witness :
  In (item_a (JString "true")) [item_a (JString "true")] /\
  records_for (item_a (JString "true"))
    (Evaluation.evaluationResults
       (evaluation "ds" sample_categories [item_a (JString "true")]
          (batch_of [result_for "a" "true"; result_for "b" "true"])))
  = results_for (item_a (JString "true"))
      (BatchResult.results
         (batch_of [result_for "a" "true"; result_for "b" "true"])).
Proof.
  split; [now left|].
  apply (at_most_one_record_for_distinct_results "ds" sample_categories
           [item_a (JString "true")]
           (batch_of [result_for "a" "true"; result_for "b" "true"])
           (item_a (JString "true"))).
  now left.
Defined.

(** C4 as stated fails: a result file with the same line twice is decoded by
    the poller into two results with the same id, and step 5 emits two
    evaluation records for the one loaded item. *)
Lemma two_records_for_one_item_counterexample :
  let items := [item_a (JString "true")] in
  let text := (sample_line ++ String LF sample_line)%string in
  In (item_a (JString "true")) items /\
  exists decoded,
    decode_lines sample_parse (split_lines (trim text)) [] = Return decoded /\
    map ClassificationResult.id decoded = [JString "a"; JString "a"] /\
    records_for (item_a (JString "true"))
      (Evaluation.evaluationResults
         (evaluation "ds" sample_categories items (batch_of decoded))) = 2.
Proof.
  split; [now left|].
  eexists. split; [vm_compute; reflexivity|]. split; reflexivity.
Qed.

(** ** Accuracy *)

Lemma evaluation_counters (ds : string) (cats : list CofactsCategory.t)
  (items : list DatasetItem.t) (br : BatchResult.t) :
  Evaluation.correctPredictions (evaluation ds cats items br)
  <= Evaluation.totalPredictions (evaluation ds cats items br) /\
  Evaluation.totalPredictions (evaluation ds cats items br)
  = length (Evaluation.evaluationResults (evaluation ds cats items br)).
Proof.
  unfold evaluation, evaluate_and_log_results. simpl.
  apply loop_over_counters; reflexivity.
Qed.

(** C1, as the code has it. Step 5 computes
    [correctPredictions / totalPredictions], the division of the language,
    whatever the counters are, for the summary trace and for the value it
    returns; [correctPredictions] never exceeds [totalPredictions], which is
    the number of results with the id of a loaded item; when
    [totalPredictions] is positive the quotient is the guarded accuracy (1/1
    is 1.0, 1/2 is 0.5, 0/1 is 0.0), and when it is 0, no result having the
    id of a loaded item, the quotient is 0/0, which is NaN: nothing is
    thrown. *)
Theorem accuracy_is_computed_unguarded :
  forall (ds : string) (cats : list CofactsCategory.t)
         (items : list DatasetItem.t) (br : BatchResult.t),
    let ev := evaluation ds cats items br in
    let quotient :=
      PrimFloat.div
        (PrimFloat.of_uint63
           (Uint63.of_Z (Z.of_nat (Evaluation.correctPredictions ev))))
        (PrimFloat.of_uint63
           (Uint63.of_Z (Z.of_nat (Evaluation.totalPredictions ev)))) in
    Evaluation.correctPredictions ev <= Evaluation.totalPredictions ev /\
    Evaluation.totalPredictions ev
    = length (filter (has_loaded_id items) (BatchResult.results br)) /\
    Evaluation.accuracy ev = quotient /\
    (exists summary,
       In (Langfuse.trace_experiment summary)
          (evaluation_calls ds cats items br) /\
       Langfuse.output_accuracy summary = quotient) /\
    match Evaluation.totalPredictions ev with
    | O => PrimFloat.is_nan (Evaluation.accuracy ev) = true
    | S _ => accuracy_is_guarded ev
    end /\
    (accuracy_of 1 1 = 1%float /\ accuracy_of 1 2 = 0.5%float /\
     accuracy_of 0 1 = 0%float).
Proof.
  intros ds cats items br ev quotient.
  destruct (evaluation_counters ds cats items br) as [Hle Hlen].
  fold ev in Hle, Hlen.
  split; [exact Hle|]. split.
  { rewrite Hlen. unfold ev, evaluation, evaluate_and_log_results. simpl.
    apply records_count_loaded_ids. }
  split; [reflexivity|]. split.
  { eexists. split.
    - unfold evaluation_calls, evaluate_and_log_results. simpl.
      apply in_or_app. right. left. reflexivity.
    - reflexivity. }
  split; [|repeat split].
  assert (Hacc : Evaluation.accuracy ev
                 = accuracy_of (Evaluation.correctPredictions ev)
                               (Evaluation.totalPredictions ev))
    by reflexivity.
  unfold accuracy_is_guarded. rewrite Hacc.
  destruct (Evaluation.totalPredictions ev) as [|n] eqn:Htot.
  - assert (Hzero : Evaluation.correctPredictions ev = 0) by lia.
    rewrite Hzero. reflexivity.
  - reflexivity.
Qed.

(** C1 as stated fails: the output file of the completed batch has one
    well-formed line, for the request "a", and the only loaded item has the
    id "b".  Step 4 returns one result, step 5 matches it with no item, so
    [totalPredictions] is 0, and still an accuracy is computed, the NaN of
    0/0, and returned in the summary of the run, where the guarded accuracy
    has no value. *)
Lemma accuracy_unguarded_counterexample :
  let items := [item_b (JString "true")] in
  let openai := scripted_openai [] "completed" (Return sample_line) in
  exists decoded summary,
    decode_lines sample_parse (split_lines (trim sample_line)) []
    = Return decoded /\
    length decoded = 1 /\
    (let ev := evaluation "ds" sample_categories items (batch_of decoded) in
     Evaluation.totalPredictions ev = 0 /\
     PrimFloat.is_nan (Evaluation.accuracy ev) = true /\
     ~ accuracy_is_guarded ev) /\
    fst (run_from_poll sample_parse openai "ds" sample_categories items
                       "batch_1") = Return summary /\
    RunSummary.totalPredictions summary = 0 /\
    PrimFloat.is_nan (RunSummary.accuracy summary) = true.
Proof.
  cbv zeta. eexists. eexists.
  split; [vm_compute; reflexivity|].
  split; [reflexivity|].
  split.
  { repeat split. unfold accuracy_is_guarded. simpl. discriminate. }
  split; [vm_compute; reflexivity|].
  split; reflexivity.
Qed.

(** ** Exact comparison of the categories *)

(** C8. When the expected and the predicted category are strings, the
    prediction is correct exactly when the two strings are equal; with the
    item [{id:"a", expectedCategory:"true"}] the result
    [{id:"a", category:"true"}] gives accuracy 1.0 and both counters 1, the
    result [{id:"a", category:"false"}] gives accuracy 0.0, and a difference
    of case or of white space is a difference. *)
Theorem correctness_is_exact_string_equality :
  (forall (ds : string) (cats : list CofactsCategory.t)
          (id expected predicted : string),
     let item := {| DatasetItem.id := JString id;
                    DatasetItem.text := JString "...";
                    DatasetItem.expectedCategory := JString expected;
                    DatasetItem.metadata := JUndefined |} in
     let ev := evaluation ds cats [item]
                          (batch_of [result_for id predicted]) in
     Evaluation.totalPredictions ev = 1 /\
     Evaluation.correctPredictions ev
     = (if string_dec expected predicted then 1 else 0) /\
     map EvaluationRecord.correct (Evaluation.evaluationResults ev)
     = [if string_dec expected predicted then true else false]) /\
  (let ev := evaluation "ds" sample_categories [item_a (JString "true")]
                        (batch_of [result_for "a" "true"]) in
   Evaluation.accuracy ev = 1%float /\
   Evaluation.correctPredictions ev = 1 /\
   Evaluation.totalPredictions ev = 1) /\
  (let ev := evaluation "ds" sample_categories [item_a (JString "true")]
                        (batch_of [result_for "a" "false"]) in
   Evaluation.accuracy ev = 0%float /\
   Evaluation.correctPredictions ev = 0 /\
   Evaluation.totalPredictions ev = 1) /\
  Evaluation.correctPredictions
    (evaluation "ds" sample_categories [item_a (JString "true")]
                (batch_of [result_for "a" "True"])) = 0 /\
  Evaluation.correctPredictions
    (evaluation "ds" sample_categories [item_a (JString "true")]
                (batch_of [result_for "a" "true "])) = 0.
Proof.
  split; [|repeat split].
  intros ds cats id expected predicted item ev.
  unfold ev, evaluation, evaluate_and_log_results, loop_over, loop_body,
    find_item, item. simpl.
  rewrite String.eqb_refl. simpl.
  destruct (string_dec expected predicted) as [Heq | Hneq].
  - apply String.eqb_eq in Heq. rewrite Heq. repeat split.
  - apply String.eqb_neq in Hneq. rewrite Hneq. repeat split.
Qed.

(** ** Flushing the traces *)

Lemma submit_records (calls : list Langfuse.Call) :
  forallb not_flush calls = true ->
  forall s,
    fold_left Langfuse.submit calls s
    = {| Langfuse.unflushed := Langfuse.unflushed s ++ calls;
         Langfuse.durable := Langfuse.durable s |}.
Proof.
  induction calls as [|c rest IH]; intros Hnone s; simpl.
  - rewrite app_nil_r. now destruct s.
  - simpl in Hnone. apply andb_prop in Hnone as [Hc Hrest].
    rewrite (IH Hrest).
    destruct c; try discriminate Hc; simpl; now rewrite <- app_assoc.
Qed.

Lemma flush_after_records (calls : list Langfuse.Call) :
  forallb not_flush calls = true ->
  Langfuse.after (calls ++ [Langfuse.flushAsync])
  = {| Langfuse.unflushed := []; Langfuse.durable := calls |}.
Proof.
  intros Hnone. unfold Langfuse.after.
  rewrite fold_left_app, (submit_records calls Hnone). reflexivity.
Qed.

(** The loop calls [trace] once and [generation] once per counted
    prediction, and never flushes. *)
Lemma loop_calls (ds : string) (cats : list CofactsCategory.t)
  (items : list DatasetItem.t) (br : BatchResult.t)
  (results : list ClassificationResult.t) :
  forall st,
    forallb not_flush (Loop.calls st) = true ->
    length (filter Langfuse.is_trace (Loop.calls st))
    = Loop.totalPredictions st ->
    forallb not_flush (Loop.calls (loop_over ds cats items br results st))
    = true /\
    length (filter Langfuse.is_trace
              (Loop.calls (loop_over ds cats items br results st)))
    = Loop.totalPredictions (loop_over ds cats items br results st).
Proof.
  unfold loop_over.
  induction results as [|r rest IH]; intros st Hnone Hcount; simpl.
  - now split.
  - apply IH; unfold loop_body; destruct (find_item items r) as [item|];
      simpl; try assumption.
    + rewrite forallb_app, Hnone. reflexivity.
    + rewrite filter_app, length_app, Hcount. simpl. lia.
Qed.

(** When step 5 returns, [flushAsync] is the last call it has made on its
    Langfuse client: every trace of a prediction, every generation and the
    summary trace were submitted before it, one trace per counted prediction
    plus the summary, and the sink holds nothing unflushed. *)
Lemma step5_flushes_last :
  forall (ds : string) (cats : list CofactsCategory.t)
         (items : list DatasetItem.t) (br : BatchResult.t),
    let ev := evaluation ds cats items br in
    let calls := evaluation_calls ds cats items br in
    exists (per_item : list Langfuse.Call)
           (summary : Langfuse.ExperimentTrace),
      calls = per_item ++ [Langfuse.trace_experiment summary;
                           Langfuse.flushAsync] /\
      forallb not_flush per_item = true /\
      length (filter Langfuse.is_trace per_item)
      = Evaluation.totalPredictions ev /\
      Langfuse.metadata_evaluationResults summary
      = Evaluation.evaluationResults ev /\
      Langfuse.unflushed (Langfuse.after calls) = [] /\
      Langfuse.durable (Langfuse.after calls)
      = per_item ++ [Langfuse.trace_experiment summary].
Proof.
  intros ds cats items br ev calls.
  unfold calls, ev, evaluation_calls, evaluation, evaluate_and_log_results.
  simpl.
  set (st := loop_over ds cats items br (BatchResult.results br) (loop_start)).
  destruct (loop_calls ds cats items br (BatchResult.results br) (loop_start)
              eq_refl eq_refl) as [Hnone Hcount].
  fold st in Hnone, Hcount.
  exists (Loop.calls st), (experiment_trace ds cats items br st).
  split; [reflexivity|]. split; [exact Hnone|]. split; [exact Hcount|].
  split; [reflexivity|].
  change (Loop.calls st ++
          [Langfuse.trace_experiment (experiment_trace ds cats items br st);
           Langfuse.flushAsync])
    with (Loop.calls st ++
          [Langfuse.trace_experiment (experiment_trace ds cats items br st)]
          ++ [Langfuse.flushAsync]).
  rewrite app_assoc, flush_after_records.
  - now split.
  - rewrite forallb_app, Hnone. reflexivity.
Qed.

(** C9. In a run that succeeds, the calls made on the Langfuse client are
    those of step 5 and end with [flushAsync]: the traces of the predictions
    with their generations and then the summary trace come before it, no
    call comes after it, and when the run returns its summary the sink holds
    every submitted record durably and nothing unflushed. *)
Theorem traces_are_flushed_before_return :
  forall (JSON_parse : Value -> option Value) (openai : OpenAI)
         (ds : string) (cats : list CofactsCategory.t)
         (items : list DatasetItem.t) (batchId : string)
         (result : RunSummary.t),
    fst (run_from_poll JSON_parse openai ds cats items batchId)
    = Return result ->
    let calls := snd (run_from_poll JSON_parse openai ds cats items batchId) in
    exists (per_item : list Langfuse.Call)
           (summary : Langfuse.ExperimentTrace),
      calls = per_item ++ [Langfuse.trace_experiment summary;
                           Langfuse.flushAsync] /\
      forallb not_flush per_item = true /\
      length (filter Langfuse.is_trace per_item)
      = RunSummary.totalPredictions result /\
      Langfuse.unflushed (Langfuse.after calls) = [] /\
      Langfuse.durable (Langfuse.after calls)
      = per_item ++ [Langfuse.trace_experiment summary].
Proof.
  intros JSON_parse openai ds cats items batchId result Hrun calls.
  unfold calls. unfold run_from_poll in *.
  destruct (outcome (poll_batch_completion JSON_parse openai batchId))
    as [batchResult | e]; [|discriminate Hrun].
  destruct (step5_flushes_last ds cats items batchResult)
    as (per_item & summary & Hcalls & Hnone & Hcount & _ & Hpending & Hdone).
  unfold evaluation_calls, evaluation in *.
  destruct (evaluate_and_log_results ds cats items batchResult)
    as [ev step5_calls].
  simpl in *. injection Hrun as Hresult. subst result. simpl.
  exists per_item, summary. repeat split; assumption.
Qed.

Lemma traces_are_flushed_before_return_witness :
  exists result,
    fst (run_from_poll sample_parse
           (scripted_openai ["queued"] "completed" (Return sample_line))
           "ds" sample_categories [item_a (JString "true")] "batch_1")
    = Return result /\
    Langfuse.unflushed
      (Langfuse.after
         (snd (run_from_poll sample_parse
                 (scripted_openai ["queued"] "completed" (Return sample_line))
                 "ds" sample_categories [item_a (JString "true")] "batch_1")))
    = [].
Proof.
  eexists. split.
  - vm_compute. reflexivity.
  - destruct (traces_are_flushed_before_return sample_parse
                (scripted_openai ["queued"] "completed" (Return sample_line))
                "ds" sample_categories [item_a (JString "true")] "batch_1"
                _ eq_refl)
      as (per_item & summary & _ & _ & _ & Hpending & _).
    exact Hpending.
Defined.

(** ** The stage executor *)

(** When every attempt throws, the step uses all its retries and fails with
    the exception of the last attempt. *)
Lemma step_do_from_all_throw {T : Type} (work : nat -> Completion T) :
  (forall k, exists e, work k = Throw e) ->
  forall n k,
    exists e,
      work (k + n) = Throw e /\
      outcome (step_do_from work n k) = Throw e /\
      length (retried (step_do_from work n k)) = n.
Proof.
  intros Hthrows. induction n as [|n IH]; intros k.
  - destruct (Hthrows k) as [e He]. exists e.
    rewrite Nat.add_0_r. simpl. rewrite He. now repeat split.
  - destruct (Hthrows k) as [e0 He0].
    destruct (IH (S k)) as (e & Hlast & Hout & Hlen). exists e.
    rewrite Nat.add_succ_r. simpl in Hlast. simpl. rewrite He0.
    destruct (step_do_from work n (S k)) as [o es]. simpl in *.
    repeat split; congruence.
Qed.

Lemma step_do_from_return {T : Type} (work : nat -> Completion T)
  (n k : nat) (v : T) :
  work k = Return v ->
  step_do_from work n k = {| outcome := Return v; retried := [] |}.
Proof.
  intros Hwork. destruct n; simpl; now rewrite Hwork.
Qed.

Lemma step_do_from_retry {T : Type} (work : nat -> Completion T)
  (n k : nat) (e : Exn) :
  work k = Throw e ->
  outcome (step_do_from work (S n) k) = outcome (step_do_from work n (S k)) /\
  retried (step_do_from work (S n) k)
  = e :: retried (step_do_from work n (S k)).
Proof.
  intros Hwork. simpl. rewrite Hwork.
  now destruct (step_do_from work n (S k)).
Qed.

(** When every attempt from the [k]-th on throws the same exception, each
    retry is spent on it. *)
Lemma step_do_from_same_throw {T : Type} (work : nat -> Completion T)
  (e : Exn) :
  forall n k,
    (forall j, work (k + j) = Throw e) ->
    step_do_from work n k = {| outcome := Throw e; retried := repeat e n |}.
Proof.
  induction n as [|n IH]; intros k Hthrows.
  - simpl. specialize (Hthrows 0). rewrite Nat.add_0_r in Hthrows.
    now rewrite Hthrows.
  - pose proof (Hthrows 0) as Hnow. rewrite Nat.add_0_r in Hnow.
    simpl. rewrite Hnow. rewrite (IH (S k)); [reflexivity|].
    intros j. specialize (Hthrows (S j)).
    now rewrite Nat.add_succ_r in Hthrows.
Qed.

(** ** Decoding the result file *)

Section DecodeFacts.

Variable JSON_parse : Value -> option Value.

Lemma get_throws (v : Value) (key : string) (e : Exn) :
  get v key = Throw e -> e = TypeError.
Proof.
  destruct v; simpl; congruence.
Qed.

Lemma get_index_throws (v : Value) (n : nat) (e : Exn) :
  get_index v n = Throw e -> e = TypeError.
Proof.
  destruct v; simpl; congruence.
Qed.

Lemma parse_throws (v : Value) (e : Exn) :
  parse JSON_parse v = Throw e -> e = SyntaxError.
Proof.
  unfold parse. destruct (JSON_parse v); congruence.
Qed.

Ltac step_bind H :=
  match type of H with
  | Js.bind ?c _ = Throw _ =>
      let E := fresh "E" in
      destruct c eqn:E; simpl in H;
      [ | injection H as H; subst;
          first [ apply get_throws in E
                | apply get_index_throws in E
                | apply parse_throws in E ];
          subst; reflexivity ]
  end.

Lemma message_content_throws (response : Value) (e : Exn) :
  message_content response = Throw e -> is_decode_error e = true.
Proof.
  unfold message_content. intros H.
  do 5 step_bind H.
  apply get_throws in H. now subst.
Qed.

Lemma decode_line_throws (line : string) (e : Exn) :
  decode_line JSON_parse line = Throw e -> is_decode_error e = true.
Proof.
  unfold decode_line. intros H.
  step_bind H.
  destruct (message_content a) eqn:Hcontent; simpl in H;
    [ | injection H as H; subst; now apply message_content_throws in Hcontent ].
  do 5 step_bind H.
  discriminate H.
Qed.

Lemma decode_lines_throws (lines : list string) :
  forall results e,
    decode_lines JSON_parse lines results = Throw e ->
    is_decode_error e = true.
Proof.
  induction lines as [|line rest IH]; intros results e H; simpl in H.
  - discriminate H.
  - destruct (decode_line JSON_parse line) eqn:Hline; simpl in H.
    + now apply IH in H.
    + injection H as H. subst. now apply decode_line_throws in Hline.
Qed.

Lemma unparseable_line_throws (line : string) :
  line_unparseable JSON_parse line ->
  exists e, decode_line JSON_parse line = Throw e.
Proof.
  unfold decode_line, parse.
  intros [Henvelope | (response & content & Henvelope & Hcontent & Hpayload)].
  - rewrite Henvelope. now exists SyntaxError.
  - rewrite Henvelope. simpl. rewrite Hcontent. simpl. rewrite Hpayload.
    now exists SyntaxError.
Qed.

(** One line that cannot be parsed is enough for the loop to throw, whatever
    was pushed to [results] before. *)
Lemma decode_lines_unparseable (lines : list string) (line : string) :
  In line lines ->
  line_unparseable JSON_parse line ->
  forall results,
    exists e,
      decode_lines JSON_parse lines results = Throw e /\
      is_decode_error e = true.
Proof.
  intros Hin Hbad.
  induction lines as [|first rest IH]; [contradiction|].
  intros results. simpl.
  destruct (decode_line JSON_parse first) as [result | e] eqn:Hfirst; simpl.
  - destruct Hin as [Hhere | Hlater].
    + subst first. destruct (unparseable_line_throws line Hbad) as [e He].
      congruence.
    + apply (IH Hlater).
  - exists e. split; [reflexivity|]. now apply decode_line_throws in Hfirst.
Qed.

End DecodeFacts.

(** ** Polling *)

Section PollFacts.

Variable JSON_parse : Value -> option Value.

(** A failure terminal status makes the callback throw an [Error] whose
    message names the status. *)
Lemma failure_terminal_names_status (openai : OpenAI) (batchId : string)
  (k : nat) (batch : Batch) :
  batches_retrieve openai batchId k = Return batch ->
  is_failure_terminal (status batch) = true ->
  poll_attempt JSON_parse openai batchId k
  = Throw (Error ("Batch processing failed with status: " ++ status batch)%string).
Proof.
  intros Hbatch Hfailure. unfold poll_attempt. rewrite Hbatch. simpl.
  destruct (String.eqb (status batch) "completed") eqn:Hcompleted.
  - apply String.eqb_eq in Hcompleted. rewrite Hcompleted in Hfailure.
    discriminate Hfailure.
  - now rewrite Hfailure.
Qed.

Lemma poll_attempt_completed (script : list string) (final text : string)
  (batchId : string) (k : nat) :
  nth k script final = "completed" ->
  poll_attempt JSON_parse (scripted_openai script final (Return text))
               batchId k
  = (results <- decode_lines JSON_parse (split_lines (trim text)) [] ;;
     Return {| BatchResult.batchId := batchId;
               BatchResult.results := results;
               BatchResult.usage :=
                 {| prompt_tokens := 1; completion_tokens := 1;
                    total_tokens := 1 |} |}).
Proof.
  intros Hstatus. unfold poll_attempt, scripted_openai. simpl.
  rewrite Hstatus. reflexivity.
Qed.

Lemma poll_attempt_never_returns (script : list string) (final text : string)
  (batchId : string) (e : Exn) :
  decode_lines JSON_parse (split_lines (trim text)) [] = Throw e ->
  forall k, exists e',
    poll_attempt JSON_parse (scripted_openai script final (Return text))
                 batchId k = Throw e'.
Proof.
  intros Hdecode k. unfold poll_attempt, scripted_openai. simpl.
  destruct (String.eqb (nth k script final) "completed").
  - rewrite Hdecode. simpl. now exists e.
  - destruct (is_failure_terminal (nth k script final)); eexists; reflexivity.
Qed.

(** A status that is neither "completed" nor a failure terminal makes the
    callback throw the "still processing" error. *)
Lemma non_terminal_is_still_processing (openai : OpenAI) (batchId : string)
  (k : nat) (batch : Batch) :
  batches_retrieve openai batchId k = Return batch ->
  String.eqb (status batch) "completed" = false ->
  is_failure_terminal (status batch) = false ->
  poll_attempt JSON_parse openai batchId k
  = Throw (Error ("Batch still processing, status: " ++ status batch)%string).
Proof.
  intros Hbatch Hcompleted Hfailure. unfold poll_attempt.
  rewrite Hbatch. simpl. now rewrite Hcompleted, Hfailure.
Qed.

(** Any number of non-terminal statuses within the retry budget is waited
    out, one wait per status, before the completed batch is decoded. *)
Lemma non_terminal_statuses_are_waited_out (text batchId : string)
  (results : list ClassificationResult.t) :
  decode_lines JSON_parse (split_lines (trim text)) [] = Return results ->
  forall (pending polled : list string) (n : nat),
    Forall (fun s => String.eqb s "completed" = false /\
                     is_failure_terminal s = false) pending ->
    length pending <= n ->
    step_do_from
      (poll_attempt JSON_parse
         (scripted_openai (polled ++ pending) "completed" (Return text))
         batchId)
      n (length polled)
    = {| outcome :=
           Return {| BatchResult.batchId := batchId;
                     BatchResult.results := results;
                     BatchResult.usage :=
                       {| prompt_tokens := 1; completion_tokens := 1;
                          total_tokens := 1 |} |};
         retried :=
           map (fun s => Error ("Batch still processing, status: " ++ s)%string)
               pending |}.
Proof.
  intros Hdecode pending.
  induction pending as [|s rest IH]; intros polled n Hnon Hbudget.
  - apply step_do_from_return.
    rewrite poll_attempt_completed.
    + now rewrite Hdecode.
    + apply nth_overflow. rewrite app_nil_r. apply Nat.le_refl.
  - inversion Hnon as [|? ? [Hcompleted Hfailure] Hrest]; subst.
    destruct n as [|n]; [simpl in Hbudget; lia|].
    assert (Hnow :
      poll_attempt JSON_parse
        (scripted_openai (polled ++ s :: rest) "completed" (Return text))
        batchId (length polled)
      = Throw (Error ("Batch still processing, status: " ++ s)%string)).
    { pose proof (non_terminal_is_still_processing
                    (scripted_openai (polled ++ s :: rest) "completed"
                                     (Return text))
                    batchId (length polled) _ eq_refl) as Hstill.
      simpl in Hstill. rewrite nth_middle in Hstill.
      now apply Hstill. }
    simpl step_do_from. rewrite Hnow.
    specialize (IH (polled ++ [s]) n Hrest).
    rewrite <- app_assoc, length_app, Nat.add_1_r in IH. simpl in IH.
    rewrite IH; [reflexivity|]. simpl in Hbudget. lia.
Qed.

End PollFacts.

(** C7. When a line of the result file of the completed batch cannot be
    parsed (its envelope, or the message content in it), the loop over the
    lines throws a decode error and keeps none of the results pushed before,
    every attempt of step 4 throws, and the run ends with that decode error:
    no run summary, and no call on the Langfuse client. *)
Theorem malformed_line_fails_the_run :
  forall (JSON_parse : Value -> option Value) (script : list string)
         (text line : string) (ds : string) (cats : list CofactsCategory.t)
         (items : list DatasetItem.t) (batchId : string),
    length script <= 1440 ->
    In line (split_lines (trim text)) ->
    line_unparseable JSON_parse line ->
    exists e,
      is_decode_error e = true /\
      decode_lines JSON_parse (split_lines (trim text)) [] = Throw e /\
      (forall k,
         nth k script "completed" = "completed" ->
         poll_attempt JSON_parse
           (scripted_openai script "completed" (Return text)) batchId k
         = Throw e) /\
      run_from_poll JSON_parse
        (scripted_openai script "completed" (Return text))
        ds cats items batchId
      = (Throw e, []).
Proof.
  intros JSON_parse script text line ds cats items batchId Hlen Hin Hbad.
  destruct (decode_lines_unparseable JSON_parse _ line Hin Hbad [])
    as (e & Hdecode & Herror).
  exists e. split; [exact Herror|]. split; [exact Hdecode|].
  assert (Hcompleted : forall k,
            nth k script "completed" = "completed" ->
            poll_attempt JSON_parse
              (scripted_openai script "completed" (Return text)) batchId k
            = Throw e).
  { intros k Hstatus. rewrite (poll_attempt_completed _ _ _ _ _ _ Hstatus).
    now rewrite Hdecode. }
  split; [exact Hcompleted|].
  destruct (step_do_from_all_throw
              (poll_attempt JSON_parse
                 (scripted_openai script "completed" (Return text)) batchId)
              (poll_attempt_never_returns JSON_parse script "completed" text
                 batchId e Hdecode) 1440 0)
    as (e' & Hlast & Hout & _).
  rewrite Hcompleted in Hlast by (apply nth_overflow; exact Hlen).
  injection Hlast as Hlast. subst e'.
  unfold run_from_poll, poll_batch_completion, step_do.
  change (retries_limit poll_config) with 1440.
  now rewrite Hout.
Qed.

Lemma malformed_line_fails_the_run_witness :
  exists e,
    is_decode_error e = true /\
    run_from_poll sample_parse
      (scripted_openai ["queued"] "completed"
         (Return (sample_line ++ String LF "not json")%string))
      "ds" sample_categories [item_a (JString "true")] "batch_1"
    = (Throw e, []).
Proof.
  destruct (malformed_line_fails_the_run sample_parse ["queued"]
              (sample_line ++ String LF "not json")%string "not json"
              "ds" sample_categories [item_a (JString "true")] "batch_1")
    as (e & Herror & _ & _ & Hrun).
  - simpl. lia.
  - vm_compute. right. left. reflexivity.
  - left. reflexivity.
  - exists e. split; assumption.
Defined.

(** C6. With the statuses queued, running, completed on successive queries,
    step 4 runs its callback three times: the first two attempts throw the
    "still processing" error and are each followed by a wait, and the third
    returns the decoded results. *)
Theorem two_waits_then_completed :
  forall (JSON_parse : Value -> option Value) (text batchId : string)
         (results : list ClassificationResult.t),
    decode_lines JSON_parse (split_lines (trim text)) [] = Return results ->
    let polled :=
      poll_batch_completion JSON_parse
        (scripted_openai ["queued"; "running"] "completed" (Return text))
        batchId in
    retried polled
    = [ Error "Batch still processing, status: queued";
        Error "Batch still processing, status: running" ] /\
    attempts polled = 3 /\
    outcome polled
    = Return {| BatchResult.batchId := batchId;
                BatchResult.results := results;
                BatchResult.usage :=
                  {| prompt_tokens := 1; completion_tokens := 1;
                     total_tokens := 1 |} |}.
Proof.
  intros JSON_parse text batchId results Hdecode polled.
  set (work := poll_attempt JSON_parse
                 (scripted_openai ["queued"; "running"] "completed"
                                  (Return text)) batchId).
  assert (H0 : work 0 = Throw (Error "Batch still processing, status: queued"))
    by reflexivity.
  assert (H1 : work 1
               = Throw (Error "Batch still processing, status: running"))
    by reflexivity.
  assert (H2 : work 2
               = Return {| BatchResult.batchId := batchId;
                           BatchResult.results := results;
                           BatchResult.usage :=
                             {| prompt_tokens := 1; completion_tokens := 1;
                                total_tokens := 1 |} |}).
  { unfold work.
    rewrite (poll_attempt_completed JSON_parse ["queued"; "running"]
               "completed" text batchId 2 eq_refl).
    now rewrite Hdecode. }
  assert (Hretried : retried polled
                     = [ Error "Batch still processing, status: queued";
                         Error "Batch still processing, status: running" ]).
  { unfold polled, poll_batch_completion, step_do.
    change (retries_limit poll_config) with (S (S 1438)). fold work.
    rewrite (proj2 (step_do_from_retry work _ 0 _ H0)).
    rewrite (proj2 (step_do_from_retry work _ 1 _ H1)).
    now rewrite (step_do_from_return work _ 2 _ H2). }
  split; [exact Hretried|]. split.
  - unfold attempts. now rewrite Hretried.
  - unfold polled, poll_batch_completion, step_do.
    change (retries_limit poll_config) with (S (S 1438)). fold work.
    rewrite (proj1 (step_do_from_retry work _ 0 _ H0)).
    rewrite (proj1 (step_do_from_retry work _ 1 _ H1)).
    now rewrite (step_do_from_return work _ 2 _ H2).
Qed.

Lemma two_waits_then_completed_witness :
  attempts
    (poll_batch_completion sample_parse
       (scripted_openai ["queued"; "running"] "completed"
                        (Return sample_line)) "batch_1") = 3.
Proof.
  apply (two_waits_then_completed sample_parse sample_line "batch_1"
           [ {| ClassificationResult.id := JString "a";
                ClassificationResult.category := JString "true";
                ClassificationResult.confidence := JNumber 1;
                ClassificationResult.reasoning := JString "because" |} ]).
  reflexivity.
Defined.

(** C2, what the code does. With the statuses running, failed, and failed
    from then on, the callback throws an error that names the status, but
    the executor handles it like the "still processing" error: step 4 queries
    the status 1441 times, waits 1440 times, and only then fails. *)
Theorem failed_status_is_retried :
  forall (JSON_parse : Value -> option Value) (file : Completion string)
         (batchId : string),
    let polled :=
      poll_batch_completion JSON_parse
        (scripted_openai ["running"] "failed" file) batchId in
    outcome polled
    = Throw (Error "Batch processing failed with status: failed") /\
    attempts polled = 1441 /\
    retried polled
    = Error "Batch still processing, status: running"
      :: repeat (Error "Batch processing failed with status: failed") 1439.
Proof.
  intros JSON_parse file batchId polled.
  set (work := poll_attempt JSON_parse
                 (scripted_openai ["running"] "failed" file) batchId).
  assert (H0 : work 0
               = Throw (Error "Batch still processing, status: running"))
    by reflexivity.
  assert (Hlater : forall j,
            work (1 + j)
            = Throw (Error "Batch processing failed with status: failed"))
    by (intros [|j]; reflexivity).
  pose proof (step_do_from_same_throw work _ 1439 1 Hlater) as Hrest.
  destruct (step_do_from_retry work 1439 0 _ H0) as [Hout Hretried].
  rewrite Hrest in Hout, Hretried. cbn [outcome retried] in Hout, Hretried.
  unfold polled, poll_batch_completion, step_do, attempts.
  change (retries_limit poll_config) with (S 1439). fold work.
  rewrite Hout, Hretried.
  split; [reflexivity|]. split; [|reflexivity].
  cbn [length]. now rewrite repeat_length.
Qed.

(** ** Normalisation of the dataset entries *)

(** C10. For every raw entry the callback accepts, [text] is the [text]
    property of the entry's [input] when [input] is an object and that
    property is truthy, and the raw [input] otherwise; [expectedCategory] is
    resolved the same way from [expectedOutput] and its [category] property.
    So an [input] object whose [text] is the empty string gives the whole
    object as [text], not the empty string. *)
Theorem normalization_falls_back_on_truthiness :
  forall (item : Value) (d : DatasetItem.t),
    normalize_item item = Return d ->
    exists input expectedOutput,
      get item "input" = Return input /\
      get item "expectedOutput" = Return expectedOutput /\
      DatasetItem.text d
      = match input with
        | JObject props =>
            if truthy (lookup "text" props) then lookup "text" props
            else input
        | _ => input
        end /\
      DatasetItem.expectedCategory d
      = match expectedOutput with
        | JObject props =>
            if truthy (lookup "category" props) then lookup "category" props
            else expectedOutput
        | _ => expectedOutput
        end /\
      (forall props,
         input = JObject props -> lookup "text" props = JString "" ->
         DatasetItem.text d = JObject props /\
         DatasetItem.text d <> JString "").
Proof.
  intros item d Hnormal. unfold normalize_item in Hnormal.
  destruct (get item "id") as [id|] eqn:Hid; [|discriminate Hnormal].
  destruct (get item "input") as [input|] eqn:Hinput; [|discriminate Hnormal].
  destruct (get item "expectedOutput") as [expectedOutput|] eqn:Hexpected;
    [|discriminate Hnormal].
  destruct (get item "metadata") as [metadata|] eqn:Hmetadata;
    [|discriminate Hnormal].
  simpl in Hnormal. injection Hnormal as Hd. subst d. simpl.
  exists input, expectedOutput.
  split; [reflexivity|]. split; [reflexivity|]. split; [|split].
  - destruct input; reflexivity.
  - destruct expectedOutput; reflexivity.
  - intros props Hobject Htext. subst input. unfold or. simpl.
    rewrite Htext. simpl. split; [reflexivity | discriminate].
Qed.

Lemma normalization_falls_back_on_truthiness_witness :
  exists d,
    normalize_item
      (JObject [ ("id", JString "x");
                 ("input", JObject [ ("text", JString "") ]);
                 ("expectedOutput", JString "true") ]) = Return d /\
    DatasetItem.text d = JObject [ ("text", JString "") ] /\
    DatasetItem.expectedCategory d = JString "true".
Proof.
  eexists. split; [reflexivity|].
  destruct (normalization_falls_back_on_truthiness
              (JObject [ ("id", JString "x");
                         ("input", JObject [ ("text", JString "") ]);
                         ("expectedOutput", JString "true") ])
              _ eq_refl)
    as (input & expectedOutput & Hinput & Hexpected & _ & Hcategory & Hempty).
  injection Hinput as Hinput. injection Hexpected as Hexpected.
  subst input expectedOutput. split.
  - apply (Hempty [ ("text", JString "") ]); reflexivity.
  - exact Hcategory.
Defined.

(** * Further properties *)

(** ** Step 5: what is scored and what is reported *)

(** The loop over [r :: rest] from the start, in terms of the iteration for
    [r] and the loop over [rest]. *)
Lemma loop_over_cons (ds : string) (cats : list CofactsCategory.t)
  (items : list DatasetItem.t) (br : BatchResult.t)
  (r : ClassificationResult.t) (rest : list ClassificationResult.t) :
  let one := loop_body ds cats items br (loop_start) r in
  let later := loop_over ds cats items br rest (loop_start) in
  let all := loop_over ds cats items br (r :: rest) (loop_start) in
  Loop.evaluationResults all
  = Loop.evaluationResults one ++ Loop.evaluationResults later /\
  Loop.correctPredictions all
  = Loop.correctPredictions one + Loop.correctPredictions later /\
  Loop.totalPredictions all
  = Loop.totalPredictions one + Loop.totalPredictions later /\
  Loop.calls all = Loop.calls one ++ Loop.calls later.
Proof.
  cbv zeta.
  change (loop_over ds cats items br (r :: rest) (loop_start))
    with (loop_over ds cats items br rest
            (loop_body ds cats items br (loop_start) r)).
  apply loop_over_shift.
Qed.

Lemma matched_iteration (ds : string) (cats : list CofactsCategory.t)
  (items : list DatasetItem.t) (br : BatchResult.t)
  (r : ClassificationResult.t) :
  let one := loop_body ds cats items br (loop_start) r in
  map EvaluationRecord.id (Loop.evaluationResults one)
  = (if matched items r then [ClassificationResult.id r] else []) /\
  map EvaluationRecord.predicted (Loop.evaluationResults one)
  = (if matched items r then [ClassificationResult.category r] else []) /\
  Loop.totalPredictions one = (if matched items r then 1 else 0).
Proof.
  unfold loop_body, matched.
  destruct (find_item items r); simpl; repeat split.
Qed.

Lemma matched_results_are_scored :
  forall (ds : string) (cats : list CofactsCategory.t)
         (items : list DatasetItem.t) (br : BatchResult.t),
    let ev := evaluation ds cats items br in
    let scored := filter (matched items) (BatchResult.results br) in
    map EvaluationRecord.id (Evaluation.evaluationResults ev)
    = map ClassificationResult.id scored /\
    map EvaluationRecord.predicted (Evaluation.evaluationResults ev)
    = map ClassificationResult.category scored /\
    Evaluation.totalPredictions ev = length scored /\
    Evaluation.totalPredictions ev <= length (BatchResult.results br).
Proof.
  intros ds cats items br. unfold evaluation, evaluate_and_log_results. simpl.
  assert (Hmain :
    forall results,
      let st := loop_over ds cats items br results (loop_start) in
      let scored := filter (matched items) results in
      map EvaluationRecord.id (Loop.evaluationResults st)
      = map ClassificationResult.id scored /\
      map EvaluationRecord.predicted (Loop.evaluationResults st)
      = map ClassificationResult.category scored /\
      Loop.totalPredictions st = length scored).
  { induction results as [|r rest IH]; [now repeat split|].
    destruct (loop_over_cons ds cats items br r rest) as (Hrec & _ & Htot & _).
    destruct (matched_iteration ds cats items br r) as (Hid & Hpred & Hone).
    destruct IH as (IHid & IHpred & IHtot).
    cbv zeta in *. rewrite Hrec, Htot, !map_app, Hid, Hpred, Hone.
    rewrite IHid, IHpred, IHtot. simpl.
    destruct (matched items r); simpl; repeat split. }
  destruct (Hmain (BatchResult.results br)) as (Hid & Hpred & Htot).
  cbv zeta in *. repeat split; try assumption.
  rewrite Htot. apply filter_length_le.
Qed.

(** The evaluation records are the results that have the id of some loaded
    item, one record each and in the order of the results, with their ids
    and predicted categories; [totalPredictions] counts them. *)
Theorem records_are_the_matched_results :
  forall (ds : string) (cats : list CofactsCategory.t)
         (items : list DatasetItem.t) (br : BatchResult.t),
    let ev := evaluation ds cats items br in
    let scored := filter (has_loaded_id items) (BatchResult.results br) in
    map EvaluationRecord.id (Evaluation.evaluationResults ev)
    = map ClassificationResult.id scored /\
    map EvaluationRecord.predicted (Evaluation.evaluationResults ev)
    = map ClassificationResult.category scored /\
    Evaluation.totalPredictions ev = length scored /\
    Evaluation.totalPredictions ev <= length (BatchResult.results br).
Proof.
  intros ds cats items br.
  assert (Hsame : filter (has_loaded_id items) (BatchResult.results br)
                  = filter (matched items) (BatchResult.results br)).
  { apply filter_ext. intros r. apply find_item_has_loaded_id. }
  cbv zeta. rewrite Hsame. apply matched_results_are_scored.
Qed.

(** When every result carries a string id that is the id of a loaded item,
    as when the provider echoes the [custom_id]s of the requests, no result
    is dropped. *)
Theorem echoed_ids_are_all_scored :
  forall (ds : string) (cats : list CofactsCategory.t)
         (items : list DatasetItem.t) (br : BatchResult.t),
    Forall (fun r => exists s,
              ClassificationResult.id r = JString s /\
              In (JString s) (map DatasetItem.id items))
           (BatchResult.results br) ->
    let ev := evaluation ds cats items br in
    Evaluation.totalPredictions ev = length (BatchResult.results br) /\
    map EvaluationRecord.id (Evaluation.evaluationResults ev)
    = map ClassificationResult.id (BatchResult.results br).
Proof.
  intros ds cats items br Hall ev.
  destruct (matched_results_are_scored ds cats items br)
    as (Hid & _ & Htot & _).
  fold ev in Hid, Htot.
  assert (Hfilter : filter (matched items) (BatchResult.results br)
                    = BatchResult.results br).
  { apply forallb_filter_id. apply forallb_forall. intros r Hin.
    rewrite Forall_forall in Hall.
    destruct (Hall r Hin) as (s & Hs & Hloaded).
    apply in_map_iff in Hloaded as (item & Hitem & Hin_item).
    unfold matched.
    destruct (find_item_some items item r Hin_item) as [first Hfirst].
    - rewrite Hitem, Hs. simpl. apply String.eqb_refl.
    - now rewrite Hfirst. }
  rewrite Hfilter in Hid, Htot. now split.
Qed.

Lemma echoed_ids_are_all_scored_witness :
  Evaluation.totalPredictions
    (evaluation "ds" sample_categories [item_a (JString "true")]
       (batch_of [result_for "a" "true"; result_for "a" "false"])) = 2.
Proof.
  apply (echoed_ids_are_all_scored "ds" sample_categories
           [item_a (JString "true")]
           (batch_of [result_for "a" "true"; result_for "a" "false"])).
  repeat constructor; exists "a"; split; try reflexivity; now left.
Defined.

(** The two counters agree with the list of records that is returned and
    logged for audit: [totalPredictions] is its length and
    [correctPredictions] the number of its records marked correct. *)
Theorem counters_agree_with_records :
  forall (ds : string) (cats : list CofactsCategory.t)
         (items : list DatasetItem.t) (br : BatchResult.t),
    let ev := evaluation ds cats items br in
    Evaluation.totalPredictions ev
    = length (Evaluation.evaluationResults ev) /\
    Evaluation.correctPredictions ev
    = length (filter EvaluationRecord.correct
                     (Evaluation.evaluationResults ev)).
Proof.
  intros ds cats items br ev.
  split; [apply evaluation_counters|].
  unfold ev, evaluation, evaluate_and_log_results. simpl.
  induction (BatchResult.results br) as [|r rest IH]; [reflexivity|].
  destruct (loop_over_cons ds cats items br r rest) as (Hrec & Hcor & _).
  cbv zeta in *. rewrite Hrec, Hcor, filter_app, length_app, <- IH.
  f_equal. unfold loop_body.
  destruct (find_item items r); [|reflexivity]. simpl.
  now destruct (strict_eq _ _).
Qed.

Lemma find_item_later_duplicate (before after_ : list DatasetItem.t)
  (first later : DatasetItem.t) (s : string) (r : ClassificationResult.t) :
  In first before ->
  DatasetItem.id first = JString s ->
  DatasetItem.id later = JString s ->
  find_item (before ++ later :: after_) r = find_item (before ++ after_) r.
Proof.
  intros Hin Hfirst Hlater. unfold find_item.
  set (p := fun item : DatasetItem.t =>
              strict_eq (DatasetItem.id item) (ClassificationResult.id r)).
  assert (Happ : forall l1 l2,
            find p (l1 ++ l2)
            = match find p l1 with
              | Some x => Some x
              | None => find p l2
              end).
  { induction l1 as [|x l1 IH]; intros l2; simpl; [reflexivity|].
    destruct (p x); [reflexivity | apply IH]. }
  rewrite !Happ. simpl.
  destruct (find p before) as [found|] eqn:Hfind; [reflexivity|].
  destruct (p later) eqn:Hp; [|reflexivity].
  pose proof (find_none _ _ Hfind first Hin) as Hno.
  unfold p in Hp, Hno. rewrite Hlater in Hp. rewrite Hfirst in Hno.
  congruence.
Qed.

(** A loaded item whose string id is already the id of an earlier item is
    never scored: step 5 returns the same value with and without it. *)
Theorem later_duplicate_item_is_never_scored :
  forall (ds : string) (cats : list CofactsCategory.t)
         (before after_ : list DatasetItem.t) (first later : DatasetItem.t)
         (s : string) (br : BatchResult.t),
    In first before ->
    DatasetItem.id first = JString s ->
    DatasetItem.id later = JString s ->
    evaluation ds cats (before ++ later :: after_) br
    = evaluation ds cats (before ++ after_) br.
Proof.
  intros ds cats before after_ first later s br Hin Hfirst Hlater.
  apply evaluation_of_scores.
  assert (Hbody : forall st st' r,
            scores st = scores st' ->
            scores (loop_body ds cats (before ++ later :: after_) br st r)
            = scores (loop_body ds cats (before ++ after_) br st' r)).
  { intros st st' r Heq. unfold loop_body.
    rewrite (find_item_later_duplicate before after_ first later s r
               Hin Hfirst Hlater).
    unfold scores in *. injection Heq as Hrec Hcor Htot.
    destruct (find_item (before ++ after_) r); simpl;
      now rewrite Hrec, Hcor, Htot. }
  unfold loop_over.
  assert (Hgen : forall results st st',
            scores st = scores st' ->
            scores (fold_left
                      (loop_body ds cats (before ++ later :: after_) br)
                      results st)
            = scores (fold_left (loop_body ds cats (before ++ after_) br)
                                results st')).
  { induction results as [|r rest IH]; intros st1 st2 Heq; simpl.
    - exact Heq.
    - apply IH. now apply Hbody. }
  now apply Hgen.
Qed.

Lemma later_duplicate_item_is_never_scored_witness :
  evaluation "ds" sample_categories
    ([item_a (JString "true")] ++ item_a (JString "false") :: [])
    (batch_of [result_for "a" "false"])
  = evaluation "ds" sample_categories ([item_a (JString "true")] ++ [])
      (batch_of [result_for "a" "false"]).
Proof.
  apply (later_duplicate_item_is_never_scored "ds" sample_categories
           [item_a (JString "true")] [] (item_a (JString "true"))
           (item_a (JString "false")) "a"
           (batch_of [result_for "a" "false"])).
  - now left.
  - reflexivity.
  - reflexivity.
Defined.

Lemma filter_some_app {A : Type} (l1 l2 : list (option A)) :
  filter_some (l1 ++ l2) = filter_some l1 ++ filter_some l2.
Proof.
  induction l1 as [|[x|] l1 IH]; simpl;
    [reflexivity | now rewrite IH | exact IH].
Qed.

(** The traces of the predictions carry, trace by trace, the expected and
    the predicted category of the evaluation records.  Their [correct]
    member is the flag of the record as long as no loaded item has a
    [correct] property of its own in its metadata; the metadata being spread
    last, such a property replaces the flag in the trace. *)
Theorem traces_agree_with_records :
  forall (ds : string) (cats : list CofactsCategory.t)
         (items : list DatasetItem.t) (br : BatchResult.t),
    let calls := evaluation_calls ds cats items br in
    let records :=
      Evaluation.evaluationResults (evaluation ds cats items br) in
    filter_some (map logged_labels calls) = map recorded_labels records /\
    (Forall (fun item =>
               own_property (DatasetItem.metadata item) "correct" = None)
            items ->
     filter_some (map logged_correct calls)
     = map (fun r => JBool (EvaluationRecord.correct r)) records) /\
    (forall overriding,
       Forall (fun item =>
                 own_property (DatasetItem.metadata item) "correct"
                 = Some overriding) items ->
       filter_some (map logged_correct calls)
       = map (fun _ => overriding) records).
Proof.
  intros ds cats items br.
  unfold evaluation_calls, evaluation, evaluate_and_log_results. simpl.
  rewrite !map_app, !filter_some_app. simpl. rewrite !app_nil_r.
  assert (Hflag : forall flag : EvaluationRecord.t -> Value,
    (forall item r,
       In item items ->
       match own_property (DatasetItem.metadata item) "correct" with
       | Some overriding => overriding
       | None => JBool (EvaluationRecord.correct r)
       end = flag r) ->
    forall results,
      filter_some (map logged_correct
                       (Loop.calls (loop_over ds cats items br results
                                              (loop_start))))
      = map flag (Loop.evaluationResults
                    (loop_over ds cats items br results (loop_start)))).
  { intros flag Hitems.
    induction results as [|r rest IH]; [reflexivity|].
    destruct (loop_over_cons ds cats items br r rest)
      as (Hrec & _ & _ & Hcalls).
    cbv zeta in *. rewrite Hrec, Hcalls, !map_app, filter_some_app, IH.
    f_equal. unfold loop_body, find_item.
    destruct (find _ items) as [item|] eqn:Hfind; [|reflexivity].
    apply find_some in Hfind as [Hin _].
    simpl. f_equal. symmetry. rewrite <- (Hitems item _ Hin). reflexivity. }
  split; [|split].
  - induction (BatchResult.results br) as [|r rest IH]; [reflexivity|].
    destruct (loop_over_cons ds cats items br r rest)
      as (Hrec & _ & _ & Hcalls).
    cbv zeta in *. rewrite Hrec, Hcalls, !map_app, filter_some_app, IH.
    f_equal. unfold loop_body.
    destruct (find_item items r); reflexivity.
  - intros Hnone. apply Hflag. intros item r Hin.
    rewrite Forall_forall in Hnone. now rewrite (Hnone item Hin).
  - intros overriding Hall. apply Hflag. intros item r Hin.
    rewrite Forall_forall in Hall. now rewrite (Hall item Hin).
Qed.

Lemma traces_agree_with_records_witness :
  filter_some
    (map logged_correct
         (evaluation_calls "ds" sample_categories [item_b (JString "true")]
            (batch_of [result_for "b" "true"])))
  = map (fun _ => JString "unknown")
        (Evaluation.evaluationResults
           (evaluation "ds" sample_categories [item_b (JString "true")]
              (batch_of [result_for "b" "true"]))).
Proof.
  apply (traces_agree_with_records "ds" sample_categories
           [item_b (JString "true")] (batch_of [result_for "b" "true"])).
  repeat constructor.
Defined.

Lemma list_sum_app_nat (l1 l2 : list nat) :
  list_sum (l1 ++ l2) = list_sum l1 + list_sum l2.
Proof.
  induction l1 as [|x l1 IH]; simpl; [reflexivity | lia].
Qed.

(** The tokens attributed to the generations never add up to more than the
    [total_tokens] of the batch: each scored result gets the rounded-down
    share of one result among all the results of the batch. *)
Theorem attributed_tokens_within_usage :
  forall (ds : string) (cats : list CofactsCategory.t)
         (items : list DatasetItem.t) (br : BatchResult.t),
    list_sum (map attributed_tokens (evaluation_calls ds cats items br))
    = Evaluation.totalPredictions (evaluation ds cats items br)
      * Nat.div (total_tokens (BatchResult.usage br))
                (length (BatchResult.results br)) /\
    list_sum (map attributed_tokens (evaluation_calls ds cats items br))
    <= total_tokens (BatchResult.usage br).
Proof.
  intros ds cats items br.
  assert (Hsum :
    list_sum (map attributed_tokens (evaluation_calls ds cats items br))
    = Evaluation.totalPredictions (evaluation ds cats items br)
      * Nat.div (total_tokens (BatchResult.usage br))
                (length (BatchResult.results br))).
  { unfold evaluation_calls, evaluation, evaluate_and_log_results. simpl.
    rewrite map_app, list_sum_app_nat. simpl. rewrite Nat.add_0_r.
    assert (Hgen : forall results,
      list_sum (map attributed_tokens
                    (Loop.calls (loop_over ds cats items br results
                                           (loop_start))))
      = Loop.totalPredictions (loop_over ds cats items br results (loop_start))
        * Nat.div (total_tokens (BatchResult.usage br))
                  (length (BatchResult.results br))).
    { induction results as [|r rest IH]; [reflexivity|].
      destruct (loop_over_cons ds cats items br r rest)
        as (_ & _ & Htot & Hcalls).
      cbv zeta in *. rewrite Htot, Hcalls, map_app, list_sum_app_nat, IH.
      rewrite Nat.mul_add_distr_r. f_equal. unfold loop_body, share.
      destruct (find_item items r); simpl; lia. }
    apply Hgen. }
  split; [exact Hsum|]. rewrite Hsum.
  destruct (matched_results_are_scored ds cats items br)
    as (_ & _ & _ & Hle).
  cbv zeta in Hle.
  destruct (length (BatchResult.results br)) as [|n] eqn:Hlen.
  - assert (Hzero : Evaluation.totalPredictions (evaluation ds cats items br)
                    = 0) by lia.
    rewrite Hzero. lia.
  - pose proof (Nat.Div0.mul_div_le (total_tokens (BatchResult.usage br)) (S n))
      as Hdiv.
    nia.
Qed.

(** ** Normalisation and its consequences *)

Lemma normalize_item_returns (entry : Value) :
  is_nullish entry = false ->
  exists input expectedOutput,
    get entry "input" = Return input /\
    get entry "expectedOutput" = Return expectedOutput /\
    normalize_item entry
    = Return {| DatasetItem.id := opt_get entry "id";
                DatasetItem.text := or (opt_get input "text") input;
                DatasetItem.expectedCategory :=
                  or (opt_get expectedOutput "category") expectedOutput;
                DatasetItem.metadata := opt_get entry "metadata" |}.
Proof.
  intros Hentry. unfold normalize_item.
  destruct entry; try discriminate Hentry; simpl;
    eexists; eexists; repeat split.
Qed.

Lemma normalize_item_throws (entry : Value) :
  is_nullish entry = true -> normalize_item entry = Throw TypeError.
Proof.
  destruct entry; try discriminate; reflexivity.
Qed.

Lemma normalize_items_outcome :
  forall entries : list Value,
    if existsb is_nullish entries
    then normalize_items entries = Throw TypeError
    else exists items,
           normalize_items entries = Return items /\
           length items = length entries /\
           map DatasetItem.id items
           = map (fun entry => opt_get entry "id") entries.
Proof.
  unfold normalize_items.
  induction entries as [|entry rest IH]; simpl.
  - exists []. now repeat split.
  - destruct (is_nullish entry) eqn:Hentry; simpl.
    + now rewrite (normalize_item_throws entry Hentry).
    + destruct (normalize_item_returns entry Hentry)
        as (input & expectedOutput & _ & _ & Hitem).
      rewrite Hitem. simpl.
      destruct (existsb is_nullish rest).
      * now rewrite IH.
      * destruct IH as (items & Hitems & Hlen & Hids).
        rewrite Hitems. simpl. eexists. split; [reflexivity|].
        simpl. now rewrite Hlen, Hids.
Qed.

(** Normalising the entries of a dataset fails, with a [TypeError], exactly
    when some entry is [null] or [undefined]; otherwise there is one item per
    entry, in order, with the [id] of its entry. *)
Theorem normalize_items_all_or_nothing :
  forall entries : list Value,
    if existsb is_nullish entries
    then normalize_items entries = Throw TypeError
    else exists items,
           normalize_items entries = Return items /\
           length items = length entries /\
           map DatasetItem.id items
           = map (fun entry => opt_get entry "id") entries.
Proof.
  intros entries. apply normalize_items_outcome.
Qed.

(** The normalised [text] is truthy exactly when the raw [input] is: the
    fallback never turns an input that is there into a text that is not. *)
Theorem text_is_there_when_input_is :
  forall (entry input : Value) (d : DatasetItem.t),
    normalize_item entry = Return d ->
    get entry "input" = Return input ->
    truthy (DatasetItem.text d) = truthy input.
Proof.
  intros entry input d Hnormal Hinput.
  destruct (is_nullish entry) eqn:Hentry.
  - rewrite (normalize_item_throws entry Hentry) in Hnormal.
    discriminate Hnormal.
  - destruct (normalize_item_returns entry Hentry)
      as (input' & expectedOutput & Hinput' & _ & Hitem).
    rewrite Hitem in Hnormal. injection Hnormal as Hd. subst d.
    rewrite Hinput in Hinput'. injection Hinput' as Hsame. subst input'.
    simpl. unfold or.
    destruct (truthy (opt_get input "text")) eqn:Htext; [|reflexivity].
    rewrite Htext. destruct input; try discriminate Htext. reflexivity.
Qed.

Lemma text_is_there_when_input_is_witness :
  truthy (DatasetItem.text
            {| DatasetItem.id := JString "x";
               DatasetItem.text := JObject [ ("text", JString "") ];
               DatasetItem.expectedCategory := JUndefined;
               DatasetItem.metadata := JUndefined |})
  = truthy (JObject [ ("text", JString "") ]).
Proof.
  apply (text_is_there_when_input_is
           (JObject [ ("id", JString "x");
                      ("input", JObject [ ("text", JString "") ]) ]));
    reflexivity.
Defined.

(** An entry whose [expectedOutput] is an object without a truthy
    [category] keeps that object as its [expectedCategory], and no
    prediction compares equal to an object: when all the entries of the
    dataset are like this, no prediction is ever counted as correct. *)
Theorem object_label_is_never_matched :
  forall (ds : string) (cats : list CofactsCategory.t)
         (entries : list Value) (items : list DatasetItem.t)
         (br : BatchResult.t),
    normalize_items entries = Return items ->
    Forall (fun entry => exists props,
              get entry "expectedOutput" = Return (JObject props) /\
              truthy (lookup "category" props) = false) entries ->
    Evaluation.correctPredictions (evaluation ds cats items br) = 0.
Proof.
  intros ds cats entries items br Hitems Hentries.
  assert (Hlabels : Forall (fun d => forall v,
                      strict_eq (DatasetItem.expectedCategory d) v = false)
                           items).
  { revert items Hitems. unfold normalize_items.
    induction Hentries as [|entry rest Hentry _ IH]; intros items Hitems;
      simpl in Hitems.
    - injection Hitems as Hitems. subst items. constructor.
    - destruct (normalize_item entry) as [d|] eqn:Hd;
        [|discriminate Hitems]. simpl in Hitems.
      destruct (map_throwing normalize_item rest) as [ds'|];
        [|discriminate Hitems]. simpl in Hitems.
      injection Hitems as Hitems. subst items.
      constructor; [|now apply IH].
      destruct Hentry as (props & Hexpected & Hcategory).
      destruct (is_nullish entry) eqn:Hnullish;
        [rewrite (normalize_item_throws entry Hnullish) in Hd;
         discriminate Hd|].
      destruct (normalize_item_returns entry Hnullish)
        as (input & expectedOutput & _ & Hget & Hitem).
      rewrite Hitem in Hd. injection Hd as Hd. subst d.
      rewrite Hexpected in Hget. injection Hget as Hget. subst expectedOutput.
      intros v. simpl. unfold or. simpl. rewrite Hcategory. reflexivity. }
  unfold evaluation, evaluate_and_log_results. simpl.
  induction (BatchResult.results br) as [|r rest IH]; [reflexivity|].
  destruct (loop_over_cons ds cats items br r rest) as (_ & Hcor & _).
  cbv zeta in Hcor. rewrite Hcor, IH, Nat.add_0_r.
  unfold loop_body, find_item.
  destruct (find _ items) as [d|] eqn:Hfind; [|reflexivity]. simpl.
  apply find_some in Hfind as [Hin _].
  rewrite Forall_forall in Hlabels. now rewrite (Hlabels d Hin).
Qed.

Lemma object_label_is_never_matched_witness :
  Evaluation.correctPredictions
    (evaluation "ds" sample_categories
       [ {| DatasetItem.id := JString "a";
            DatasetItem.text := JString "...";
            DatasetItem.expectedCategory := JObject [ ("label", JString "true") ];
            DatasetItem.metadata := JUndefined |} ]
       (batch_of [result_for "a" "true"])) = 0.
Proof.
  apply (object_label_is_never_matched "ds" sample_categories
           [ JObject [ ("id", JString "a"); ("input", JString "...");
                       ("expectedOutput",
                        JObject [ ("label", JString "true") ]) ] ]).
  - reflexivity.
  - repeat constructor. exists [ ("label", JString "true") ].
    split; reflexivity.
Defined.

(** ** Step 4: decoding and polling *)

(** When the loop over the lines ends normally there is one result per line,
    in the order of the lines, after what [results] held before. *)
Lemma decode_lines_returns (JSON_parse : Value -> option Value)
  (lines : list string) :
  forall results decoded,
    decode_lines JSON_parse lines results = Return decoded ->
    exists added,
      decoded = results ++ added /\
      Forall2 (fun line result => decode_line JSON_parse line = Return result)
              lines added.
Proof.
  induction lines as [|line rest IH]; intros results decoded Hdecode;
    simpl in Hdecode.
  - injection Hdecode as Hdecode. subst decoded. exists [].
    split; [now rewrite app_nil_r | constructor].
  - destruct (decode_line JSON_parse line) as [result|] eqn:Hline;
      [|discriminate Hdecode]. simpl in Hdecode.
    destruct (IH _ _ Hdecode) as (added & Hadded & Hall).
    exists (result :: added). split.
    + now rewrite Hadded, <- app_assoc.
    + now constructor.
Qed.

Lemma poll_attempt_returns :
  forall (JSON_parse : Value -> option Value) (openai : OpenAI)
         (batchId : string) (k : nat) (batchResult : BatchResult.t),
    poll_attempt JSON_parse openai batchId k = Return batchResult ->
    exists batch text,
      batches_retrieve openai batchId k = Return batch /\
      status batch = "completed" /\
      files_content openai (output_file_id batch) = Return text /\
      BatchResult.batchId batchResult = batch_id batch /\
      Forall2 (fun line result =>
                 decode_line JSON_parse line = Return result)
              (split_lines (trim text)) (BatchResult.results batchResult) /\
      length (BatchResult.results batchResult)
      = length (split_lines (trim text)) /\
      prompt_tokens (BatchResult.usage batchResult)
      = completed_or_zero batch /\
      completion_tokens (BatchResult.usage batchResult)
      = completed_or_zero batch /\
      total_tokens (BatchResult.usage batchResult) = completed_or_zero batch.
Proof.
  intros JSON_parse openai batchId k batchResult Hpoll.
  unfold poll_attempt in Hpoll.
  destruct (batches_retrieve openai batchId k) as [batch|] eqn:Hbatch;
    [|discriminate Hpoll]. simpl in Hpoll.
  destruct (String.eqb (status batch) "completed") eqn:Hstatus.
  - destruct (files_content openai (output_file_id batch)) as [text|]
      eqn:Htext; [|discriminate Hpoll]. simpl in Hpoll.
    destruct (decode_lines JSON_parse (split_lines (trim text)) [])
      as [results|] eqn:Hdecode; [|discriminate Hpoll]. simpl in Hpoll.
    injection Hpoll as Hpoll. subst batchResult. simpl.
    destruct (decode_lines_returns JSON_parse _ _ _ Hdecode)
      as (added & Hadded & Hall).
    simpl in Hadded. subst added.
    exists batch, text. apply String.eqb_eq in Hstatus.
    repeat split; try assumption; try reflexivity.
    symmetry. apply (Forall2_length Hall).
  - destruct (is_failure_terminal (status batch)); discriminate Hpoll.
Qed.

(** The callback of step 4 returns only for a batch whose status is
    "completed", and then with the id of that batch, one result per line of
    its trimmed output file, decoded from that line and in the order of the
    lines, and the completed-request count of the batch (0 when there is
    none) as all three token counts. *)
Theorem poll_attempt_returns_the_completed_batch :
  forall (JSON_parse : Value -> option Value) (openai : OpenAI)
         (batchId : string) (k : nat) (batchResult : BatchResult.t),
    poll_attempt JSON_parse openai batchId k = Return batchResult ->
    exists batch text,
      batches_retrieve openai batchId k = Return batch /\
      status batch = "completed" /\
      files_content openai (output_file_id batch) = Return text /\
      BatchResult.batchId batchResult = batch_id batch /\
      Forall2 (fun line result =>
                 decode_line JSON_parse line = Return result)
              (split_lines (trim text)) (BatchResult.results batchResult) /\
      length (BatchResult.results batchResult)
      = length (split_lines (trim text)) /\
      prompt_tokens (BatchResult.usage batchResult)
      = completed_or_zero batch /\
      completion_tokens (BatchResult.usage batchResult)
      = completed_or_zero batch /\
      total_tokens (BatchResult.usage batchResult) = completed_or_zero batch.
Proof.
  intros JSON_parse openai batchId k batchResult.
  apply poll_attempt_returns.
Qed.

Lemma poll_attempt_returns_the_completed_batch_witness :
  exists batch text,
    batches_retrieve
      (scripted_openai ["queued"] "completed" (Return sample_line))
      "batch_1" 1 = Return batch /\
    status batch = "completed" /\
    files_content
      (scripted_openai ["queued"] "completed" (Return sample_line))
      (output_file_id batch) = Return text /\
    length (split_lines (trim text)) = 1.
Proof.
  destruct (poll_attempt_returns_the_completed_batch sample_parse
              (scripted_openai ["queued"] "completed" (Return sample_line))
              "batch_1" 1 _ eq_refl)
    as (batch & text & Hbatch & Hstatus & Htext & _ & _ & Hlen & _).
  exists batch, text. repeat split; try assumption.
  rewrite <- Hlen. reflexivity.
Defined.

(** The loop over the lines stops at the first line that cannot be decoded
    and throws what that line throws, whatever comes after it. *)
Theorem decode_stops_at_the_first_bad_line :
  forall (JSON_parse : Value -> option Value)
         (good : list string) (decoded : list ClassificationResult.t)
         (bad : string) (rest : list string) (e : Exn),
    Forall2 (fun line result => decode_line JSON_parse line = Return result)
            good decoded ->
    decode_line JSON_parse bad = Throw e ->
    decode_lines JSON_parse (good ++ bad :: rest) [] = Throw e.
Proof.
  intros JSON_parse good decoded bad rest e Hgood Hbad.
  generalize (@nil ClassificationResult.t).
  induction Hgood as [|line result good decoded Hline _ IH]; intros results;
    simpl.
  - now rewrite Hbad.
  - rewrite Hline. simpl. apply IH.
Qed.

Lemma decode_stops_at_the_first_bad_line_witness :
  decode_lines sample_parse ([sample_line] ++ "not json" :: [sample_line]) []
  = Throw SyntaxError.
Proof.
  apply (decode_stops_at_the_first_bad_line sample_parse [sample_line]
           [ {| ClassificationResult.id := JString "a";
                ClassificationResult.category := JString "true";
                ClassificationResult.confidence := JNumber 1;
                ClassificationResult.reasoning := JString "because" |} ]).
  - repeat constructor.
  - reflexivity.
Defined.

Lemma trim_start_blank (w : string) : blank w = true -> trim_start w = "".
Proof.
  induction w as [|c w IH]; simpl; [reflexivity|].
  intros Hblank. apply andb_prop in Hblank as [Hc Hw].
  rewrite Hc. now apply IH.
Qed.

Lemma trim_end_blank (w : string) : blank w = true -> trim_end w = "".
Proof.
  induction w as [|c w IH]; simpl; [reflexivity|].
  intros Hblank. apply andb_prop in Hblank as [Hc Hw].
  now rewrite (IH Hw), Hc.
Qed.

Lemma trim_end_app_blank (s w : string) :
  blank w = true -> trim_end (s ++ w) = trim_end s.
Proof.
  intros Hblank. induction s as [|c s IH]; simpl.
  - now apply trim_end_blank.
  - now rewrite IH.
Qed.

Lemma trim_start_app_blank (s w : string) :
  blank w = true ->
  trim_start (s ++ w)%string
  = if blank s then EmptyString else (trim_start s ++ w)%string.
Proof.
  intros Hblank. induction s as [|c s IH]; simpl.
  - now apply trim_start_blank.
  - destruct (is_white_space c); simpl; [exact IH | reflexivity].
Qed.

Lemma trim_start_blank_app (w s : string) :
  blank w = true -> trim_start (w ++ s) = trim_start s.
Proof.
  induction w as [|c w IH]; simpl; [reflexivity|].
  intros Hblank. apply andb_prop in Hblank as [Hc Hw].
  rewrite Hc. now apply IH.
Qed.

Lemma trim_ignores_surrounding_blanks (before text after_ : string) :
  blank before = true -> blank after_ = true ->
  trim (before ++ text ++ after_) = trim text.
Proof.
  intros Hbefore Hafter. unfold trim.
  rewrite (trim_start_blank_app before _ Hbefore).
  rewrite (trim_start_app_blank text after_ Hafter).
  destruct (blank text) eqn:Htext.
  - now rewrite (trim_start_blank text Htext).
  - now apply trim_end_app_blank.
Qed.

(** White space around the content of the output file, such as a final line
    feed, changes nothing: the same lines are decoded, and the callback ends
    the same way. *)
Theorem surrounding_white_space_is_ignored :
  forall (JSON_parse : Value -> option Value) (script : list string)
         (final batchId : string) (k : nat) (before text after_ : string),
    blank before = true ->
    blank after_ = true ->
    split_lines (trim (before ++ text ++ after_)) = split_lines (trim text) /\
    poll_attempt JSON_parse
      (scripted_openai script final
         (Return (before ++ text ++ after_)%string)) batchId k
    = poll_attempt JSON_parse (scripted_openai script final (Return text))
                   batchId k.
Proof.
  intros JSON_parse script final batchId k before text after_ Hbefore Hafter.
  pose proof (trim_ignores_surrounding_blanks before text after_
                Hbefore Hafter) as Htrim.
  split; [now rewrite Htrim|].
  unfold poll_attempt, scripted_openai. simpl. now rewrite Htrim.
Qed.

Lemma surrounding_white_space_is_ignored_witness :
  poll_attempt sample_parse
    (scripted_openai [] "completed"
       (Return (newline ++ sample_line ++ newline)%string)) "batch_1" 0
  = poll_attempt sample_parse
      (scripted_openai [] "completed" (Return sample_line)) "batch_1" 0.
Proof.
  apply (surrounding_white_space_is_ignored sample_parse [] "completed"
           "batch_1" 0 newline sample_line newline);
    reflexivity.
Defined.

(** A completed batch whose output file is empty or all white space does not
    give an empty list of results: the file has one line, the empty one,
    and the callback throws the [SyntaxError] of parsing it. *)
Theorem blank_output_file_throws :
  forall (JSON_parse : Value -> option Value) (openai : OpenAI)
         (batchId : string) (k : nat) (batch : Batch) (text : string),
    JSON_parse (JString "") = None ->
    batches_retrieve openai batchId k = Return batch ->
    status batch = "completed" ->
    files_content openai (output_file_id batch) = Return text ->
    blank text = true ->
    split_lines (trim text) = [EmptyString] /\
    poll_attempt JSON_parse openai batchId k = Throw SyntaxError.
Proof.
  intros JSON_parse openai batchId k batch text Hparse Hbatch Hstatus Htext
         Hblank.
  assert (Htrim : trim text = "").
  { unfold trim. now rewrite (trim_start_blank text Hblank). }
  split; [now rewrite Htrim|].
  unfold poll_attempt. rewrite Hbatch. simpl. rewrite Hstatus. simpl.
  rewrite Htext. simpl. rewrite Htrim. simpl.
  unfold decode_line, parse. now rewrite Hparse.
Qed.

Lemma blank_output_file_throws_witness :
  poll_attempt sample_parse
    (scripted_openai [] "completed" (Return newline)) "batch_1" 0
  = Throw SyntaxError.
Proof.
  apply (blank_output_file_throws sample_parse
           (scripted_openai [] "completed" (Return newline)) "batch_1" 0
           {| batch_id := "batch_1"; status := "completed";
              output_file_id := Some "file-output";
              request_counts_completed := Some 1 |} newline);
    reflexivity.
Defined.

Lemma step_do_from_budget {T : Type} (work : nat -> Completion T) :
  forall n k, length (retried (step_do_from work n k)) <= n.
Proof.
  induction n as [|n IH]; intros k; simpl.
  - destruct (work k); simpl; lia.
  - destruct (work k); simpl; [lia|].
    specialize (IH (S k)).
    destruct (step_do_from work n (S k)). simpl in *. lia.
Qed.

(** When the attempts [k] to [k + n] all throw, the step uses its [n]
    retries and fails with the exception of attempt [k + n]. *)
Lemma step_do_from_exhausted {T : Type} (work : nat -> Completion T) :
  forall n k,
    (forall j, j <= n -> exists e, work (k + j) = Throw e) ->
    exists e,
      work (k + n) = Throw e /\
      outcome (step_do_from work n k) = Throw e /\
      length (retried (step_do_from work n k)) = n.
Proof.
  induction n as [|n IH]; intros k Hthrows.
  - destruct (Hthrows 0 (Nat.le_refl 0)) as [e He]. exists e.
    rewrite Nat.add_0_r in *. simpl. rewrite He. now repeat split.
  - destruct (Hthrows 0 (Nat.le_0_l _)) as [e0 He0].
    rewrite Nat.add_0_r in He0.
    destruct (IH (S k)) as (e & Hlast & Hout & Hlen).
    { intros j Hj. destruct (Hthrows (S j)) as [e' He']; [lia|].
      exists e'. now rewrite Nat.add_succ_r in He'. }
    exists e. rewrite Nat.add_succ_r. simpl in Hlast. simpl. rewrite He0.
    destruct (step_do_from work n (S k)) as [o es]. simpl in *.
    repeat split; congruence.
Qed.

(** Step 4 never queries the status more than 1441 times; and when the
    first 1441 answers are all statuses that are neither "completed" nor a
    failure terminal, it fails after the 1441st with the "still processing"
    error of that last status. *)
Theorem polling_gives_up_after_the_retry_budget :
  forall (JSON_parse : Value -> option Value) (openai : OpenAI)
         (batchId : string),
    attempts (poll_batch_completion JSON_parse openai batchId) <= 1441 /\
    ((forall k, k <= 1440 ->
        exists batch,
          batches_retrieve openai batchId k = Return batch /\
          String.eqb (status batch) "completed" = false /\
          is_failure_terminal (status batch) = false) ->
     exists last,
       batches_retrieve openai batchId 1440 = Return last /\
       outcome (poll_batch_completion JSON_parse openai batchId)
       = Throw (Error ("Batch still processing, status: "
                       ++ status last)%string) /\
       attempts (poll_batch_completion JSON_parse openai batchId) = 1441).
Proof.
  intros JSON_parse openai batchId.
  unfold poll_batch_completion, step_do, attempts.
  change (retries_limit poll_config) with 1440.
  split.
  - pose proof (step_do_from_budget
                  (poll_attempt JSON_parse openai batchId) 1440 0).
    lia.
  - intros Hpending.
    destruct (step_do_from_exhausted
                (poll_attempt JSON_parse openai batchId) 1440 0)
      as (e & Hlast & Hout & Hlen).
    { intros j Hj. destruct (Hpending j Hj) as (batch & Hb & Hc & Hf).
      eexists.
      apply (non_terminal_is_still_processing JSON_parse openai batchId
               (0 + j) batch Hb Hc Hf). }
    destruct (Hpending 1440 (Nat.le_refl _)) as (last & Hb & Hc & Hf).
    exists last. split; [exact Hb|].
    change (0 + 1440) with 1440 in Hlast.
    rewrite (non_terminal_is_still_processing JSON_parse openai batchId
               1440 last Hb Hc Hf) in Hlast.
    injection Hlast as Hlast. subst e.
    split; [exact Hout | now rewrite Hlen].
Qed.

Lemma polling_gives_up_after_the_retry_budget_witness :
  outcome
    (poll_batch_completion sample_parse
       (scripted_openai [] "in_progress" (Return sample_line)) "batch_1")
  = Throw (Error "Batch still processing, status: in_progress").
Proof.
  destruct (polling_gives_up_after_the_retry_budget sample_parse
              (scripted_openai [] "in_progress" (Return sample_line))
              "batch_1") as [_ Hexhaust].
  destruct Hexhaust as (last & Hlast & Hout & _).
  - intros k _. eexists. split; [reflexivity|].
    destruct k; split; reflexivity.
  - injection Hlast as Hlast. subst last. exact Hout.
Defined.

(** Any statuses that are neither "completed" nor a failure terminal, as
    many as the retry budget allows, are waited out one wait each: the step
    then returns the decoded results of the completed batch. *)
Theorem pending_statuses_are_waited_out :
  forall (JSON_parse : Value -> option Value) (script : list string)
         (text batchId : string) (results : list ClassificationResult.t),
    Forall (fun s => String.eqb s "completed" = false /\
                     is_failure_terminal s = false) script ->
    length script <= 1440 ->
    decode_lines JSON_parse (split_lines (trim text)) [] = Return results ->
    let polled :=
      poll_batch_completion JSON_parse
        (scripted_openai script "completed" (Return text)) batchId in
    outcome polled
    = Return {| BatchResult.batchId := batchId;
                BatchResult.results := results;
                BatchResult.usage :=
                  {| prompt_tokens := 1; completion_tokens := 1;
                     total_tokens := 1 |} |} /\
    retried polled
    = map (fun s => Error ("Batch still processing, status: " ++ s)%string)
          script /\
    attempts polled = S (length script).
Proof.
  intros JSON_parse script text batchId results Hpending Hbudget Hdecode
         polled.
  pose proof (non_terminal_statuses_are_waited_out JSON_parse text batchId
                results Hdecode script [] 1440 Hpending Hbudget) as Hrun.
  cbn [app length] in Hrun.
  unfold polled, poll_batch_completion, step_do, attempts.
  change (retries_limit poll_config) with 1440.
  rewrite Hrun. cbn [outcome retried]. rewrite length_map. now repeat split.
Qed.

Lemma pending_statuses_are_waited_out_witness :
  attempts
    (poll_batch_completion sample_parse
       (scripted_openai ["validating"; "in_progress"; "finalizing"]
                        "completed" (Return sample_line)) "batch_1") = 4.
Proof.
  apply (pending_statuses_are_waited_out sample_parse
           ["validating"; "in_progress"; "finalizing"] sample_line "batch_1"
           [ {| ClassificationResult.id := JString "a";
                ClassificationResult.category := JString "true";
                ClassificationResult.confidence := JNumber 1;
                ClassificationResult.reasoning := JString "because" |} ]).
  - repeat constructor.
  - simpl. lia.
  - reflexivity.
Defined.

(** ** Step 1: loading the categories and the dataset *)

(** What the categories step does with the answer of the server.  An answer
    that is not [ok] fails with its status text and its body is not read.  An
    [ok] answer is not validated: a body that is [null], or whose [data]
    member is [null] or missing (as in an answer that carries only errors),
    throws a [TypeError]; otherwise the [ListCategories] member of [data] is
    returned as it is, [undefined] when there is none. *)
Theorem categories_answer_is_not_validated :
  forall response : Response,
    load_cofacts_categories (Return response)
    = if ok response then
        match json response with
        | Throw e => Throw e
        | Return body =>
            if is_nullish body || is_nullish (opt_get body "data")
            then Throw TypeError
            else Return (opt_get (opt_get body "data") "ListCategories")
        end
      else
        Throw (Error ("Failed to fetch categories: "
                      ++ statusText response)%string).
Proof.
  intros response. unfold load_cofacts_categories. simpl.
  destruct (ok response); simpl; [|reflexivity].
  destruct (json response) as [body|]; simpl; [|reflexivity].
  destruct body; simpl; try reflexivity.
  destruct (lookup "data" props); reflexivity.
Qed.

(** The dataset step fails only with an [Error] whose message names the
    dataset, whether the retrieval failed or an entry could not be
    normalised; it returns exactly when the dataset was retrieved and none of
    its entries is [null] or [undefined], with one item per entry; and the
    name it uses is empty only if the configured default is. *)
Theorem dataset_failures_name_the_dataset :
  forall (error_text : Exn -> string)
         (getDataset : string -> Completion (list Value))
         (payload_datasetName : option string) (env_DATASET_NAME : string),
    let name := datasetName_of payload_datasetName env_DATASET_NAME in
    match load_langfuse_dataset error_text getDataset name with
    | Throw e =>
        exists cause,
          e = Error ("Failed to load dataset '" ++ name ++ "': "
                     ++ error_text cause)%string /\
          (getDataset name = Throw cause \/
           exists entries,
             getDataset name = Return entries /\
             existsb is_nullish entries = true /\ cause = TypeError)
    | Return items =>
        exists entries,
          getDataset name = Return entries /\
          existsb is_nullish entries = false /\
          normalize_items entries = Return items /\
          length items = length entries
    end /\
    (name = "" -> env_DATASET_NAME = "").
Proof.
  intros error_text getDataset payload env name. split.
  - unfold load_langfuse_dataset.
    destruct (getDataset name) as [entries | cause] eqn:Hget; simpl.
    + pose proof (normalize_items_outcome entries) as Hnormal.
      destruct (existsb is_nullish entries) eqn:Hnull.
      * rewrite Hnormal. exists TypeError. split; [reflexivity|].
        right. now exists entries.
      * destruct Hnormal as (items & Hitems & Hlen & _).
        rewrite Hitems. now exists entries.
    + exists cause. split; [reflexivity | now left].
  - unfold name, datasetName_of. destruct payload as [given|]; [|auto].
    destruct (String.eqb given "") eqn:Hgiven; [auto|].
    intros Hempty. rewrite Hempty in Hgiven. discriminate Hgiven.
Qed.

Lemma dataset_failures_name_the_dataset_witness :
  (datasetName_of (Some "") "default-set" = "" -> "default-set" = "") /\
  load_langfuse_dataset (fun _ => "TypeError")
    (fun _ => Return [JNull]) (datasetName_of (Some "") "default-set")
  = Throw (Error "Failed to load dataset 'default-set': TypeError").
Proof.
  split.
  - apply (dataset_failures_name_the_dataset (fun _ => "TypeError")
             (fun _ => Return [JNull]) (Some "") "default-set").
  - reflexivity.
Defined.

(** ** Step 2: the uploaded requests *)

Lemma map_throwing_returns {A B : Type} (f : A -> Completion B) :
  forall (l : list A) (out : list B),
    map_throwing f l = Return out ->
    Forall2 (fun a b => f a = Return b) l out.
Proof.
  induction l as [|a rest IH]; intros out Hmap; simpl in Hmap.
  - injection Hmap as Hmap. subst out. constructor.
  - destruct (f a) as [b|] eqn:Hb; [|discriminate Hmap]. simpl in Hmap.
    destruct (map_throwing f rest) as [bs|]; [|discriminate Hmap].
    simpl in Hmap. injection Hmap as Hmap. subst out.
    constructor; [exact Hb | now apply IH].
Qed.

Lemma upload_returns (ToString : Value -> Completion string)
  (JSON_stringify : Value -> string)
  (files_create : string -> Completion string)
  (cats : list CofactsCategory.t) (items : list DatasetItem.t)
  (upload : BatchUpload.t) :
  upload_batch_to_openai ToString JSON_stringify files_create cats items
  = Return upload ->
  exists category_lines requests,
    map_throwing (category_line ToString) cats = Return category_lines /\
    Forall2 (fun item request =>
               batch_request ToString (join newline category_lines) item
               = Return request) items requests /\
    files_create (join newline (map JSON_stringify requests))
    = Return (BatchUpload.fileId upload) /\
    BatchUpload.requestCount upload = length requests.
Proof.
  unfold upload_batch_to_openai. intros Hupload.
  destruct (map_throwing (category_line ToString) cats)
    as [category_lines|]; [|discriminate Hupload]. simpl in Hupload.
  destruct (map_throwing _ items) as [requests|] eqn:Hrequests;
    [|discriminate Hupload]. simpl in Hupload.
  destruct (files_create _) as [fileId|] eqn:Hfile; [|discriminate Hupload].
  simpl in Hupload. injection Hupload as Hupload. subst upload.
  exists category_lines, requests.
  split; [reflexivity|]. split; [|now split].
  now apply map_throwing_returns.
Qed.

Lemma batch_request_custom_id (ToString : Value -> Completion string)
  (categoryList : string) (item : DatasetItem.t) (request : Value) :
  batch_request ToString categoryList item = Return request ->
  opt_get request "custom_id" = DatasetItem.id item.
Proof.
  unfold batch_request. intros Hrequest.
  destruct (ToString (DatasetItem.text item)); [|discriminate Hrequest].
  simpl in Hrequest. injection Hrequest as Hrequest. now subst request.
Qed.

Lemma requests_keep_the_ids (ToString : Value -> Completion string)
  (categoryList : string) (items : list DatasetItem.t)
  (requests : list Value) :
  Forall2 (fun item request =>
             batch_request ToString categoryList item = Return request)
          items requests ->
  map (fun request => opt_get request "custom_id") requests
  = map DatasetItem.id items.
Proof.
  induction 1 as [|item request items requests Hone _ IH]; [reflexivity|].
  simpl. rewrite IH. f_equal.
  apply (batch_request_custom_id ToString categoryList item request Hone).
Qed.

(** When the upload step returns, it has uploaded one file made of one
    request per dataset item, in the order of the items and each with the
    [id] of its item as [custom_id], and [requestCount] is the number of
    items; for an empty dataset the file is empty and is uploaded all the
    same. *)
Theorem upload_sends_one_request_per_item :
  forall (ToString : Value -> Completion string)
         (JSON_stringify : Value -> string)
         (files_create : string -> Completion string)
         (cats : list CofactsCategory.t) (items : list DatasetItem.t)
         (upload : BatchUpload.t),
    upload_batch_to_openai ToString JSON_stringify files_create cats items
    = Return upload ->
    exists requests,
      files_create (join newline (map JSON_stringify requests))
      = Return (BatchUpload.fileId upload) /\
      map (fun request => opt_get request "custom_id") requests
      = map DatasetItem.id items /\
      BatchUpload.requestCount upload = length items /\
      (items = [] -> files_create "" = Return (BatchUpload.fileId upload)).
Proof.
  intros ToString JSON_stringify files_create cats items upload Hupload.
  destruct (upload_returns _ _ _ _ _ _ Hupload)
    as (category_lines & requests & _ & Hrequests & Hfile & Hcount).
  exists requests. split; [exact Hfile|].
  assert (Hids : map (fun request => opt_get request "custom_id") requests
                 = map DatasetItem.id items).
  { apply (requests_keep_the_ids ToString _ _ _ Hrequests). }
  split; [exact Hids|]. split.
  - rewrite Hcount. symmetry. apply (Forall2_length Hrequests).
  - intros Hempty. subst items. inversion Hrequests. subst requests.
    exact Hfile.
Qed.

Lemma upload_sends_one_request_per_item_witness :
  exists upload,
    upload_batch_to_openai sample_ToString sample_stringify
      (fun _ => Return "file-1") sample_categories
      [item_a (JString "true")] = Return upload /\
    BatchUpload.requestCount upload = 1.
Proof.
  eexists. split; [reflexivity|].
  destruct (upload_sends_one_request_per_item sample_ToString
              sample_stringify (fun _ => Return "file-1") sample_categories
              [item_a (JString "true")] _ eq_refl)
    as (requests & _ & _ & Hcount & _).
  exact Hcount.
Defined.

Lemma split_lines_single_line (s : string) :
  single_line s = true -> split_lines s = [s].
Proof.
  induction s as [|c s IH]; simpl; [reflexivity|].
  intros Hsingle. apply andb_prop in Hsingle as [Hc Hs].
  apply negb_true_iff in Hc. now rewrite Hc, (IH Hs).
Qed.

Lemma split_lines_first_line (s rest : string) :
  single_line s = true ->
  split_lines (s ++ newline ++ rest) = s :: split_lines rest.
Proof.
  induction s as [|c s IH]; simpl.
  - reflexivity.
  - intros Hsingle. apply andb_prop in Hsingle as [Hc Hs].
    apply negb_true_iff in Hc. rewrite Hc. simpl in IH. now rewrite (IH Hs).
Qed.

(** Splitting at line feeds what was joined with line feeds gives the parts
    back, when there are parts and none contains a line feed. *)
Lemma split_lines_join (parts : list string) :
  parts <> [] ->
  forallb single_line parts = true ->
  split_lines (join newline parts) = parts.
Proof.
  induction parts as [|part rest IH]; [congruence|].
  intros _ Hsingle. simpl in Hsingle.
  apply andb_prop in Hsingle as [Hpart Hrest].
  destruct rest as [|next rest].
  - simpl. now apply split_lines_single_line.
  - change (join newline (part :: next :: rest))
      with (part ++ newline ++ join newline (next :: rest))%string.
    rewrite (split_lines_first_line _ _ Hpart).
    f_equal. apply IH; [discriminate | exact Hrest].
Qed.

(** The uploaded file has one line per request, the serialised requests in
    the order of the dataset items, when no serialised request contains a
    line feed; only for an empty dataset the counts differ, the empty file
    being one empty line for a [requestCount] of 0. *)
Theorem uploaded_file_has_one_line_per_request :
  forall (ToString : Value -> Completion string)
         (JSON_stringify : Value -> string)
         (files_create : string -> Completion string)
         (cats : list CofactsCategory.t) (items : list DatasetItem.t)
         (upload : BatchUpload.t),
    (forall request, single_line (JSON_stringify request) = true) ->
    upload_batch_to_openai ToString JSON_stringify files_create cats items
    = Return upload ->
    exists content requests,
      files_create content = Return (BatchUpload.fileId upload) /\
      length requests = length items /\
      split_lines content
      = match requests with
        | [] => [EmptyString]
        | _ => map JSON_stringify requests
        end /\
      length (split_lines content)
      = Nat.max 1 (BatchUpload.requestCount upload).
Proof.
  intros ToString JSON_stringify files_create cats items upload Hsingle
         Hupload.
  destruct (upload_returns _ _ _ _ _ _ Hupload)
    as (category_lines & requests & _ & Hrequests & Hfile & Hcount).
  exists (join newline (map JSON_stringify requests)), requests.
  split; [exact Hfile|].
  split; [symmetry; apply (Forall2_length Hrequests)|].
  rewrite Hcount.
  destruct requests as [|request rest]; [now split|].
  assert (Hlines : split_lines
                     (join newline (map JSON_stringify (request :: rest)))
                   = map JSON_stringify (request :: rest)).
  { apply split_lines_join; [discriminate|].
    apply forallb_forall. intros line Hin.
    apply in_map_iff in Hin as (r & Hr & _). subst line. apply Hsingle. }
  split; [exact Hlines|].
  rewrite Hlines, length_map. simpl. lia.
Qed.

Lemma uploaded_file_has_one_line_per_request_witness :
  exists content,
    length (split_lines content) = 2 /\
    upload_batch_to_openai sample_ToString sample_stringify
      (fun _ => Return "file-1") sample_categories
      [item_a (JString "true"); item_a (JString "false")]
    = Return {| BatchUpload.fileId := "file-1";
                BatchUpload.requestCount := 2 |}.
Proof.
  destruct (uploaded_file_has_one_line_per_request sample_ToString
              sample_stringify (fun _ => Return "file-1") sample_categories
              [item_a (JString "true"); item_a (JString "false")]
              {| BatchUpload.fileId := "file-1";
                 BatchUpload.requestCount := 2 |})
    as (content & requests & _ & _ & _ & Hlines).
  - intros request. unfold sample_stringify.
    destruct (opt_get request "custom_id"); reflexivity.
  - reflexivity.
  - exists content. split; [exact Hlines | reflexivity].
Defined.

(** ** Steps 4 and 5 together *)

(** A step that returns does so with the value of one of its attempts, the
    attempts before it having thrown and been retried. *)
Lemma step_do_from_returns {T : Type} (work : nat -> Completion T) (v : T) :
  forall n k,
    outcome (step_do_from work n k) = Return v ->
    exists j,
      j <= n /\ work (k + j) = Return v /\
      length (retried (step_do_from work n k)) = j.
Proof.
  induction n as [|n IH]; intros k; simpl.
  - destruct (work k) as [v0|] eqn:Hwork; simpl; [|discriminate].
    intros Hout. exists 0. rewrite Nat.add_0_r.
    split; [lia|]. split; [congruence | reflexivity].
  - destruct (work k) as [v0|] eqn:Hwork; simpl.
    + intros Hout. exists 0. rewrite Nat.add_0_r.
      split; [lia|]. split; [congruence | reflexivity].
    + specialize (IH (S k)).
      destruct (step_do_from work n (S k)) as [o es]. simpl in *.
      intros Hout. destruct (IH Hout) as (j & Hj & Hreturn & Hlen).
      exists (S j). rewrite Nat.add_succ_r. repeat split; [lia | | lia].
      exact Hreturn.
Qed.

(** A run that returns a summary has found the batch completed on one of its
    at most 1441 status queries; the summary carries the id of that batch and
    the number of loaded items, and its counters are bounded by the number of
    lines of the trimmed output file:
    [correctPredictions <= totalPredictions <= lines]. *)
Theorem summary_is_bounded_by_the_output_file :
  forall (JSON_parse : Value -> option Value) (openai : OpenAI)
         (ds : string) (cats : list CofactsCategory.t)
         (items : list DatasetItem.t) (batchId : string)
         (summary : RunSummary.t),
    fst (run_from_poll JSON_parse openai ds cats items batchId)
    = Return summary ->
    exists k batch text,
      k <= 1440 /\
      batches_retrieve openai batchId k = Return batch /\
      status batch = "completed" /\
      files_content openai (output_file_id batch) = Return text /\
      RunSummary.batchId summary = batch_id batch /\
      RunSummary.itemsProcessed summary = length items /\
      RunSummary.correctPredictions summary
      <= RunSummary.totalPredictions summary /\
      RunSummary.totalPredictions summary
      <= length (split_lines (trim text)).
Proof.
  intros JSON_parse openai ds cats items batchId summary Hrun.
  unfold run_from_poll in Hrun.
  destruct (outcome (poll_batch_completion JSON_parse openai batchId))
    as [batchResult|] eqn:Hpoll; [|discriminate Hrun].
  unfold poll_batch_completion, step_do in Hpoll.
  change (retries_limit poll_config) with 1440 in Hpoll.
  destruct (step_do_from_returns _ _ _ _ Hpoll) as (k & Hk & Hattempt & _).
  change (0 + k) with k in Hattempt.
  destruct (poll_attempt_returns JSON_parse openai batchId k batchResult
              Hattempt)
    as (batch & text & Hbatch & Hstatus & Htext & Hid & _ & Hlen & _).
  destruct (evaluation_counters ds cats items batchResult) as [Hle _].
  destruct (matched_results_are_scored ds cats items batchResult)
    as (_ & _ & _ & Hbound).
  cbv zeta in Hbound. unfold evaluation in Hle, Hbound.
  destruct (evaluate_and_log_results ds cats items batchResult)
    as [ev calls].
  simpl in *. injection Hrun as Hsummary. subst summary. simpl.
  exists k, batch, text. repeat split; try assumption. now rewrite <- Hlen.
Qed.

Lemma summary_is_bounded_by_the_output_file_witness :
  exists summary,
    fst (run_from_poll sample_parse
           (scripted_openai ["queued"] "completed" (Return sample_line))
           "ds" sample_categories [item_a (JString "true")] "batch_1")
    = Return summary /\
    RunSummary.correctPredictions summary
    <= RunSummary.totalPredictions summary.
Proof.
  eexists. split.
  - vm_compute. reflexivity.
  - destruct (summary_is_bounded_by_the_output_file sample_parse
                (scripted_openai ["queued"] "completed" (Return sample_line))
                "ds" sample_categories [item_a (JString "true")] "batch_1"
                _ eq_refl)
      as (k & batch & text & _ & _ & _ & _ & _ & _ & Hle & _).
    exact Hle.
Defined.
